(** * tron-proxy: the JSON-RPC dispatcher of [main.go]

    A shallow embedding of the request dispatcher: the envelope parser, the
    call decoder, the batch homogeneity guard, the method router, the three
    executors and the response assembler, followed by the properties of the
    dispatcher that the specification states.

    Conventions of the embedding.
    - A JSON document is a [json] tree.  Object members are kept as an
      association list in document order, because [encoding/json] assigns
      struct fields member by member and a later member overrides an
      earlier one.
    - A Go [interface{}] is [any]: [None] is the nil interface (what JSON
      [null] decodes to), [Some v] a non-nil value whose JSON encoding is
      [v].  Decoding a document into an [interface{}] is [generic]: a
      number becomes the [float64] nearest to it and an object a map, so
      what is encoded again has the literal of that [float64] and the
      members sorted by key, each key once.
    - The request that [handleJSONRPC] works on is the value [raw] of the
      first decode, written as the tree [json.Marshal] writes for it.
      Replies of the node and trace files are documents as they were
      sent or stored.
    - A Go slice is [slice A]: [None] is the nil slice (encoded as [null]),
      [Some l] a non-nil slice.
    - Outbound HTTP is state passing over an abstract [World]; the trace
      directory is a read-only snapshot. *)

From Stdlib Require Import ZArith String Ascii List Bool Lia DecimalString.
From stdpp Require Import base option list strings.

Local Open Scope string_scope.

(** ** JSON values *)

(** A number literal: a plain decimal integer, or a literal with a fraction
    or an exponent, kept as its text.  In a request the literals are those
    [json.Marshal] writes for the [float64] values of the first decode.
    The sign of a zero is not kept: [-0] is [Integer 0]. *)
Inductive number :=
| Integer (z : Z)
| Fractional (lit : string).

#[warnings="-register-all"]
Inductive json :=
| JNull
| JBool (b : bool)
| JNumber (n : number)
| JString (s : string)
| JArray (elems : list json)
| JObject (members : list (string * json)).

(** [interface{}] *)
Definition any : Type := option json.

(** [[]T], with the nil slice told apart from the empty one. *)
Definition slice (A : Type) : Type := option (list A).

Definition len {A : Type} (s : slice A) : nat :=
  match s with
  | None => 0
  | Some l => length l
  end.

(** ** The wire types of [main.go] *)

Module Req.
Record JSONRPCRequest := {
  Jsonrpc : string;
  Method : string;
  Params : slice json;      (* []json.RawMessage *)
  ID : any
}.
End Req.

Module Resp.
Record JSONRPCResponse := {
  Jsonrpc : string;
  ID : any;
  Result : any;            (* omitempty: left out of the encoding when nil *)
  Error : any              (* omitempty *)
}.
End Resp.

Abbreviation JSONRPCRequest := Req.JSONRPCRequest.
Abbreviation JSONRPCResponse := Resp.JSONRPCResponse.

Record TronTransactionInfo := {
  InternalTransactions : slice json;   (* []json.RawMessage *)
  Id : string;
  BlockNumber : Z;                     (* int64 *)
  TransactionHash : string
}.

(** The zero values Go starts a decode from. *)
Definition zeroRequest : JSONRPCRequest :=
  {| Req.Jsonrpc := ""; Req.Method := ""; Req.Params := None; Req.ID := None |}.

Definition zeroResponse : JSONRPCResponse :=
  {| Resp.Jsonrpc := ""; Resp.ID := None; Resp.Result := None; Resp.Error := None |}.

Definition zeroTxInfo : TronTransactionInfo :=
  {| InternalTransactions := None; Id := ""; BlockNumber := 0;
     TransactionHash := "" |}.

(** ** [encoding/json]: decoding into the types above *)

Definition upper (c : ascii) : ascii :=
  let n := N_of_ascii c in
  if ((97 <=? n) && (n <=? 122))%N then ascii_of_N (n - 32) else c.

Definition is_byte (c : ascii) (n : N) : bool := (N_of_ascii c =? n)%N.

(** The case folding under which a member name selects a struct field:
    ASCII letters fold to upper case; the two non-ASCII runes whose fold
    orbit contains an ASCII letter, U+017F (long s, bytes C5 BF) and U+212A
    (Kelvin sign, bytes E2 84 AA), fold to [S] and [K]. *)
Fixpoint foldName (s : string) : string :=
  match s with
  | EmptyString => EmptyString
  | String c s1 =>
    match s1 with
    | String c2 s2 =>
      if is_byte c 197 && is_byte c2 191 then String "S" (foldName s2)
      else
        match s2 with
        | String c3 s3 =>
          if is_byte c 226 && is_byte c2 132 && is_byte c3 170
          then String "K" (foldName s3)
          else String (upper c) (foldName s1)
        | EmptyString => String (upper c) (foldName s1)
        end
    | EmptyString => String (upper c) (foldName s1)
    end
  end.

(** Does member name [key] select the field tagged [name]? *)
Definition selects (key name : string) : bool :=
  String.eqb (foldName key) (foldName name).

Definition minInt64 : Z := - 2 ^ 63.
Definition maxInt64 : Z := 2 ^ 63 - 1.

(** Decoding into a [string] variable holding [cur]: [null] leaves the
    variable alone, any other non-string is an [UnmarshalTypeError]. *)
Definition unmarshalString (v : json) (cur : string) : option string :=
  match v with
  | JString s => Some s
  | JNull => Some cur
  | _ => None
  end.

(** Decoding into an [int64] variable holding [cur]: the literal goes
    through [strconv.ParseInt], which refuses a fraction, an exponent and
    anything outside the 64-bit range. *)
Definition unmarshalInt64 (v : json) (cur : Z) : option Z :=
  match v with
  | JNumber (Integer z) =>
    if ((minInt64 <=? z) && (z <=? maxInt64))%Z then Some z else None
  | JNull => Some cur
  | _ => None
  end.

(** Decoding into a [[]json.RawMessage]: every element is kept as it is. *)
Definition unmarshalRawSlice (v : json) : option (slice json) :=
  match v with
  | JArray l => Some (Some l)
  | JNull => Some None
  | _ => None
  end.

(** Decoding into an [interface{}] a member of the request: the tree was
    written by [json.Marshal] from the values of the first decode, and
    decoding it gives these values back. *)
Definition unmarshalAny (v : json) : any :=
  match v with
  | JNull => None
  | _ => Some v
  end.

(** *** Numbers in an [interface{}]: [float64] *)

(** A decimal literal read as a sign, a mantissa and a power of ten. *)
Record decimal := { negative : bool; mantissa : Z; exponent10 : Z }.

Definition digitValue (c : ascii) : option Z :=
  let n := Z.of_N (N_of_ascii c) in
  if ((48 <=? n) && (n <=? 57))%Z then Some (n - 48)%Z else None.

(** The value of a string of digits, read after the digits of value
    [acc]. *)
Fixpoint readDigits (s : string) (acc : Z) : option Z :=
  match s with
  | EmptyString => Some acc
  | String c rest =>
    match digitValue c with
    | Some d => readDigits rest (10 * acc + d)%Z
    | None => None
    end
  end.

Definition readNat (s : string) : option Z :=
  match s with
  | EmptyString => None
  | _ => readDigits s 0
  end.

(** [s] cut at the first character for which [sep] holds. *)
Fixpoint cut (sep : ascii -> bool) (s : string) : string * option string :=
  match s with
  | EmptyString => (EmptyString, None)
  | String c rest =>
    if sep c then (EmptyString, Some rest)
    else let '(before, after) := cut sep rest in (String c before, after)
  end.

Definition readSigned (s : string) : option Z :=
  match s with
  | String c rest =>
    if Ascii.eqb c "-" then Z.opp <$> readNat rest
    else if Ascii.eqb c "+" then readNat rest
    else readNat s
  | EmptyString => None
  end.

(** A literal [[-]int[.frac][(e|E)[+|-]digits]]. *)
Definition readLiteral (lit : string) : option decimal :=
  let '(neg, body) :=
    match lit with
    | String c rest => if Ascii.eqb c "-" then (true, rest) else (false, lit)
    | EmptyString => (false, lit)
    end in
  let '(significand, exp) := cut (fun c => Ascii.eqb c "e" || Ascii.eqb c "E") body in
  let '(int, frac) := cut (fun c => Ascii.eqb c ".") significand in
  i ← readNat int;
  m ← match frac with
      | None => Some i
      | Some EmptyString => None
      | Some f => readDigits f i
      end;
  e ← match exp with
      | None => Some 0%Z
      | Some x => readSigned x
      end;
  Some {| negative := neg; mantissa := m;
          exponent10 := (e - Z.of_nat (String.length (default "" frac)))%Z |}.

Definition decimalOf (n : number) : option decimal :=
  match n with
  | Integer z =>
    Some {| negative := (z <? 0)%Z; mantissa := Z.abs z; exponent10 := 0 |}
  | Fractional lit => readLiteral lit
  end.

(** [m * 10^e] as a fraction [(a, b)]. *)
Definition ratio (m e : Z) : Z * Z :=
  if (0 <=? e)%Z then (m * 10 ^ e, 1)%Z else (m, 10 ^ (- e))%Z.

(** [q / 2^p] *)
Definition scale2 (q : Z * Z) (p : Z) : Z * Z :=
  let '(a, b) := q in
  if (0 <=? p)%Z then (a, b * 2 ^ p)%Z else (a * 2 ^ (- p), b)%Z.

(** The integer nearest to the fraction [q], a tie going to the even
    one. *)
Definition roundHalfEven (q : Z * Z) : Z :=
  let '(a, b) := q in
  let n := (a / b)%Z in
  match (2 * (a mod b) ?= b)%Z with
  | Lt => n
  | Gt => (n + 1)%Z
  | Eq => if Z.even n then n else (n + 1)%Z
  end.

(** A [float64]: zero, or [significand * 2^exponent2] with
    [significand < 2^53] and, below [2^52], [exponent2 = -1074]; or no
    [float64] at all, the value being out of range. *)
Inductive rounded :=
| Zero
| Finite (significand exponent2 : Z)
| Overflow.

(** [strconv.ParseFloat(s, 64)]: the [float64] nearest to [m * 10^e], for
    [m >= 0].  A value too small rounds to zero without an error; a value
    too large is an error. *)
Definition roundFloat64 (m e : Z) : rounded :=
  if (m =? 0)%Z then Zero
  else
    let q := ratio m e in
    let k := (Z.log2 (fst q) - Z.log2 (snd q))%Z in
    let '(a, b) := scale2 q k in
    let binade := if (a <? b)%Z then (k - 1)%Z else k in
    let p := Z.max (binade - 52) (-1074) in
    let n := roundHalfEven (scale2 q p) in
    let '(n, p) := if (n =? 2 ^ 53)%Z then (2 ^ 52, p + 1)%Z else (n, p) in
    if (n =? 0)%Z then Zero
    else if (971 <? p)%Z then Overflow
    else Finite n p.

Definition sameFloat (r : rounded) (n p : Z) : bool :=
  match r with
  | Finite n' p' => ((n' =? n) && (p' =? p))%Z
  | _ => false
  end.

Definition digitString (d : Z) : string := NilZero.string_of_int (Z.to_int d).

(** The number of decimal digits of a positive integer. *)
Definition digits10 (d : Z) : Z := Z.of_nat (String.length (digitString d)).

(** The decimal [d * 10^x] with at most [count] significant digits that
    reads back as the float [n * 2^p], if there is one, and the nearer to
    the float if there are two; [d0 * 10^x0] is the float written out in
    full. *)
Definition shortestWith (n p d0 x0 : Z) (count : Z) : option (Z * Z) :=
  let nd := digits10 d0 in
  if (nd <=? count)%Z then Some (d0, x0)
  else
    let s := (10 ^ (nd - count))%Z in
    let lo := (d0 / s)%Z in
    let x := (x0 + (nd - count))%Z in
    let okLo := sameFloat (roundFloat64 lo x) n p in
    let okHi := sameFloat (roundFloat64 (lo + 1) x) n p in
    let nearerLo := (d0 - lo * s <=? (lo + 1) * s - d0)%Z in
    if okLo && (negb okHi || nearerLo) then Some (lo, x)
    else if okHi then Some ((lo + 1)%Z, x)
    else None.

Fixpoint shortestFrom (n p d0 x0 : Z) (count : Z) (fuel : nat) : Z * Z :=
  match fuel with
  | O => (d0, x0)
  | S fuel' =>
    match shortestWith n p d0 x0 count with
    | Some r => r
    | None => shortestFrom n p d0 x0 (count + 1) fuel'
    end
  end.

(** Trailing zeros moved from the digits into the power of ten. *)
Fixpoint stripZeros (fuel : nat) (d x : Z) : Z * Z :=
  match fuel with
  | O => (d, x)
  | S fuel' =>
    if ((d mod 10 =? 0) && negb (d =? 0))%Z
    then stripZeros fuel' (d / 10)%Z (x + 1)%Z
    else (d, x)
  end.

(** [strconv.AppendFloat(b, f, fmt, -1, 64)]: the shortest decimal that
    reads back as the float [n * 2^p], as digits and a power of ten;
    seventeen digits always do. *)
Definition shortest (n p : Z) : Z * Z :=
  let '(d0, x0) :=
    if (0 <=? p)%Z then (n * 2 ^ p, 0)%Z else (n * 5 ^ (- p), p)%Z in
  let '(d, x) := shortestFrom n p d0 x0 1 17 in
  stripZeros 400 d x.

Fixpoint zeros (n : nat) : string :=
  match n with
  | O => ""
  | S n' => String "0" (zeros n')
  end.

(** The literal [json.Marshal] writes for a [float64] of digits [d] and
    power of ten [x]: format [f] when the decimal exponent is between -6
    and 20, format [e] otherwise, its exponent without padding. *)
Definition floatLiteral (neg : bool) (d x : Z) : number :=
  let ds := digitString d in
  let len := Z.of_nat (String.length ds) in
  let sci := (x + len - 1)%Z in
  let sign := if neg then "-" else "" in
  if ((sci <? -6) || (21 <=? sci))%Z then
    let digits :=
      match ds with
      | String c EmptyString => String c EmptyString
      | String c rest => String c ("." ++ rest)
      | EmptyString => ""
      end in
    Fractional (sign ++ digits ++ "e" ++ (if (sci <? 0)%Z then "-" else "+")
                ++ digitString (Z.abs sci))
  else if (0 <=? x)%Z then
    Integer ((if neg then -1 else 1) * d * 10 ^ x)%Z
  else
    let point := (len + x)%Z in
    if (point <=? 0)%Z then
      Fractional (sign ++ "0." ++ zeros (Z.to_nat (- point)) ++ ds)
    else
      Fractional (sign ++ substring 0 (Z.to_nat point) ds ++ "."
                  ++ substring (Z.to_nat point) (Z.to_nat (- x)) ds).

(** A number decoded into an [interface{}] and encoded again: the literal
    of the [float64] nearest to it; [None] when the literal is out of
    range, which makes [json.Unmarshal] return an error. *)
Definition float64Literal (n : number) : option number :=
  match decimalOf n with
  | None => None
  | Some dec =>
    match roundFloat64 (mantissa dec) (exponent10 dec) with
    | Zero => Some (Integer 0)
    | Overflow => None
    | Finite sig p =>
      let '(d, x) := shortest sig p in Some (floatLiteral (negative dec) d x)
    end
  end.

(** *** Objects in an [interface{}]: maps *)

(** [m[key] = v] on a map kept as its members in the order [json.Marshal]
    writes them: sorted by key, each key once. *)
Fixpoint insertMember (key : string) (v : json) (m : list (string * json))
  : list (string * json) :=
  match m with
  | [] => [(key, v)]
  | (key', v') :: rest =>
    match String.compare key key' with
    | Lt => (key, v) :: m
    | Eq => (key, v) :: rest
    | Gt => (key', v') :: insertMember key v rest
    end
  end.

(** A document decoded into an [interface{}], as [json.Marshal] writes the
    value again; [None] when a number is out of range. *)
Fixpoint generic (v : json) : option json :=
  match v with
  | JNumber n => JNumber <$> float64Literal n
  | JArray elems =>
    JArray <$>
      (fix each (l : list json) : option (list json) :=
         match l with
         | [] => Some []
         | x :: rest =>
           match generic x, each rest with
           | Some y, Some ys => Some (y :: ys)
           | _, _ => None
           end
         end) elems
  | JObject members =>
    JObject <$>
      (fix each (ms : list (string * json)) (m : list (string * json))
         : option (list (string * json)) :=
         match ms with
         | [] => Some m
         | (key, x) :: rest =>
           match generic x with
           | Some y => each rest (insertMember key y m)
           | None => None
           end
         end) members []
  | _ => Some v
  end.

(** [json.Unmarshal] into an [interface{}] of a document from outside. *)
Definition unmarshalGeneric (v : json) : option any :=
  match v with
  | JNull => Some None
  | _ => Some <$> generic v
  end.

(** One member of an object decoded into a [JSONRPCRequest]; members that
    select no field are skipped. *)
Definition requestMember (key : string) (v : json) (req : JSONRPCRequest)
  : option JSONRPCRequest :=
  if selects key "jsonrpc" then
    s ← unmarshalString v (Req.Jsonrpc req);
    Some {| Req.Jsonrpc := s; Req.Method := Req.Method req;
            Req.Params := Req.Params req; Req.ID := Req.ID req |}
  else if selects key "method" then
    s ← unmarshalString v (Req.Method req);
    Some {| Req.Jsonrpc := Req.Jsonrpc req; Req.Method := s;
            Req.Params := Req.Params req; Req.ID := Req.ID req |}
  else if selects key "params" then
    ps ← unmarshalRawSlice v;
    Some {| Req.Jsonrpc := Req.Jsonrpc req; Req.Method := Req.Method req;
            Req.Params := ps; Req.ID := Req.ID req |}
  else if selects key "id" then
    Some {| Req.Jsonrpc := Req.Jsonrpc req; Req.Method := Req.Method req;
            Req.Params := Req.Params req; Req.ID := unmarshalAny v |}
  else Some req.

Fixpoint requestMembers (ms : list (string * json)) (req : JSONRPCRequest)
  : option JSONRPCRequest :=
  match ms with
  | [] => Some req
  | (key, v) :: rest =>
    match requestMember key v req with
    | None => None
    | Some req' => requestMembers rest req'
    end
  end.

(** [json.Unmarshal(bytes, &req)] for [var req JSONRPCRequest]; [None] is a
    non-nil error.  A [null] document decodes without error and leaves the
    zero value. *)
Definition unmarshalRequest (v : json) : option JSONRPCRequest :=
  match v with
  | JObject ms => requestMembers ms zeroRequest
  | JNull => Some zeroRequest
  | _ => None
  end.

Definition responseMember (key : string) (v : json) (resp : JSONRPCResponse)
  : option JSONRPCResponse :=
  if selects key "jsonrpc" then
    s ← unmarshalString v (Resp.Jsonrpc resp);
    Some {| Resp.Jsonrpc := s; Resp.ID := Resp.ID resp;
            Resp.Result := Resp.Result resp; Resp.Error := Resp.Error resp |}
  else if selects key "id" then
    a ← unmarshalGeneric v;
    Some {| Resp.Jsonrpc := Resp.Jsonrpc resp; Resp.ID := a;
            Resp.Result := Resp.Result resp; Resp.Error := Resp.Error resp |}
  else if selects key "result" then
    a ← unmarshalGeneric v;
    Some {| Resp.Jsonrpc := Resp.Jsonrpc resp; Resp.ID := Resp.ID resp;
            Resp.Result := a; Resp.Error := Resp.Error resp |}
  else if selects key "error" then
    a ← unmarshalGeneric v;
    Some {| Resp.Jsonrpc := Resp.Jsonrpc resp; Resp.ID := Resp.ID resp;
            Resp.Result := Resp.Result resp; Resp.Error := a |}
  else Some resp.

Fixpoint responseMembers (ms : list (string * json)) (resp : JSONRPCResponse)
  : option JSONRPCResponse :=
  match ms with
  | [] => Some resp
  | (key, v) :: rest =>
    match responseMember key v resp with
    | None => None
    | Some resp' => responseMembers rest resp'
    end
  end.

Definition responseValue (v : json) : option JSONRPCResponse :=
  match v with
  | JObject ms => responseMembers ms zeroResponse
  | JNull => Some zeroResponse
  | _ => None
  end.

Definition txInfoMember (key : string) (v : json) (t : TronTransactionInfo)
  : option TronTransactionInfo :=
  if selects key "internal_transactions" then
    its ← unmarshalRawSlice v;
    Some {| InternalTransactions := its; Id := Id t;
            BlockNumber := BlockNumber t; TransactionHash := TransactionHash t |}
  else if selects key "id" then
    s ← unmarshalString v (Id t);
    Some {| InternalTransactions := InternalTransactions t; Id := s;
            BlockNumber := BlockNumber t; TransactionHash := TransactionHash t |}
  else if selects key "blockNumber" then
    n ← unmarshalInt64 v (BlockNumber t);
    Some {| InternalTransactions := InternalTransactions t; Id := Id t;
            BlockNumber := n; TransactionHash := TransactionHash t |}
  else if selects key "transactionHash" then
    s ← unmarshalString v (TransactionHash t);
    Some {| InternalTransactions := InternalTransactions t; Id := Id t;
            BlockNumber := BlockNumber t; TransactionHash := s |}
  else Some t.

Fixpoint txInfoMembers (ms : list (string * json)) (t : TronTransactionInfo)
  : option TronTransactionInfo :=
  match ms with
  | [] => Some t
  | (key, v) :: rest =>
    match txInfoMember key v t with
    | None => None
    | Some t' => txInfoMembers rest t'
    end
  end.

Definition txInfoValue (v : json) : option TronTransactionInfo :=
  match v with
  | JObject ms => txInfoMembers ms zeroTxInfo
  | JNull => Some zeroTxInfo
  | _ => None
  end.

(** Decoding a document into a slice of structs: an array whose every
    element decodes, or [null] (the nil slice). *)
Definition unmarshalSliceOf {A : Type} (elem : json -> option A) (v : json)
  : option (slice A) :=
  match v with
  | JArray l => Some <$> mapM elem l
  | JNull => Some None
  | _ => None
  end.

(** The bytes of a body: not JSON at all, or a document. *)
Inductive Body :=
| Malformed
| Document (v : json).

(** [json.Unmarshal(respBody, &forwardResp)] *)
Definition unmarshalResponse (b : Body) : option JSONRPCResponse :=
  match b with
  | Malformed => None
  | Document v => responseValue v
  end.

(** [json.Unmarshal(respBody, &batchResp)] *)
Definition unmarshalResponses (b : Body) : option (slice JSONRPCResponse) :=
  match b with
  | Malformed => None
  | Document v => unmarshalSliceOf responseValue v
  end.

(** [json.Unmarshal(respBody, &respJson)] for [[]TronTransactionInfo] *)
Definition unmarshalTxInfos (b : Body) : option (slice TronTransactionInfo) :=
  match b with
  | Malformed => None
  | Document v => unmarshalSliceOf txInfoValue v
  end.

(** [json.Unmarshal(fileData, &traceJson)] for [var traceJson interface{}] *)
Definition unmarshalInterface (b : Body) : option any :=
  match b with
  | Malformed => None
  | Document v => unmarshalGeneric v
  end.

(** ** [encoding/json]: encoding *)

Definition marshalAny (a : any) : json :=
  match a with
  | None => JNull
  | Some v => v
  end.

Definition marshalRawSlice (s : slice json) : json :=
  match s with
  | None => JNull
  | Some l => JArray l
  end.

(** [json.Marshal(req)]: every field is written, in declaration order. *)
Definition marshalRequest (req : JSONRPCRequest) : json :=
  JObject [("jsonrpc", JString (Req.Jsonrpc req));
           ("method", JString (Req.Method req));
           ("params", marshalRawSlice (Req.Params req));
           ("id", marshalAny (Req.ID req))].

Definition marshalTxInfo (t : TronTransactionInfo) : json :=
  JObject [("internal_transactions", marshalRawSlice (InternalTransactions t));
           ("id", JString (Id t));
           ("blockNumber", JNumber (Integer (BlockNumber t)));
           ("transactionHash", JString (TransactionHash t))].

Definition marshalTxInfos (s : slice TronTransactionInfo) : json :=
  match s with
  | None => JNull
  | Some l => JArray (map marshalTxInfo l)
  end.

(** [json.NewEncoder(w).Encode(resp)]: [jsonrpc] and [id] are always
    written; [result] and [error] carry [omitempty] and are written only
    when the interface is not nil. *)
Definition marshalResponse (resp : JSONRPCResponse) : json :=
  JObject ([("jsonrpc", JString (Resp.Jsonrpc resp));
            ("id", marshalAny (Resp.ID resp))]
           ++ match Resp.Result resp with
              | Some v => [("result", v)]
              | None => []
              end
           ++ match Resp.Error resp with
              | Some v => [("error", v)]
              | None => []
              end)%list.

(** [json.NewEncoder(w).Encode(responses)] *)
Definition marshalResponses (responses : slice JSONRPCResponse) : json :=
  match responses with
  | None => JNull
  | Some l => JArray (map marshalResponse l)
  end.

(** ** The outside world *)

(** [http.Post] followed by [io.ReadAll] of the reply body (whose error the
    code drops): a transport error with its text, or the bytes received.
    The status code is never looked at. *)
Inductive PostResult :=
| PostFailed (err : string)
| PostReplied (respBody : Body).

(** What the dispatcher is configured with and talks to.  [os_ReadFile]
    gives [None] for a read error.  [completionOrder n] is the order in
    which the [n] goroutines of a batch trace lookup store their result;
    the wait group lets the handler continue once each of them has run
    exactly once. *)
Record Env := {
  World : Type;
  tronJSONRPCEndpoint : string;
  tronRestEndpoint : string;
  http_Post : string -> json -> World -> PostResult * World;
  os_ReadFile : string -> option Body;
  completionOrder : nat -> list nat;
  completionOrder_perm : forall n, completionOrder n ≡ₚ seq 0 n
}.

Definition traceDir : string := "/project/trace".

(** ** Response construction *)

Definition errorObject (code : Z) (message : string) : json :=
  JObject [("code", JNumber (Integer code)); ("message", JString message)].

Definition jsonError (id : any) (code : Z) (msg : string) : JSONRPCResponse :=
  {| Resp.Jsonrpc := "2.0"; Resp.ID := id; Resp.Result := None;
     Resp.Error := Some (errorObject code msg) |}.

Definition createErrorResponsesForBatch (reqs : list JSONRPCRequest) (code : Z)
  (msg : string) : list JSONRPCResponse :=
  map (fun r => jsonError (Req.ID r) code msg) reqs.

(** ** Call decoder *)

Definition parseSingleRequest (v : list (string * json)) : option JSONRPCRequest :=
  unmarshalRequest (JObject v).

Definition batchParseError : JSONRPCResponse :=
  {| Resp.Jsonrpc := "2.0"; Resp.ID := None; Resp.Result := None;
     Resp.Error :=
       Some (errorObject (-32700) "Parse error: invalid JSON in batch") |}.

(** The loop of [parseBatchRequests], with its two accumulators. *)
Fixpoint parseBatchLoop (arr : list json) (reqs : list JSONRPCRequest)
  (errors : list JSONRPCResponse) : list JSONRPCRequest * list JSONRPCResponse :=
  match arr with
  | [] => (reqs, errors)
  | elem :: rest =>
    match unmarshalRequest elem with
    | None => parseBatchLoop rest reqs (errors ++ [batchParseError])
    | Some req => parseBatchLoop rest (reqs ++ [req]) errors
    end
  end.

Definition parseBatchRequests (arr : list json)
  : slice JSONRPCRequest * slice JSONRPCResponse :=
  let '(reqs, errors) := parseBatchLoop arr [] [] in
  if (0 <? length errors)%nat then (None, Some errors) else (Some reqs, None).

(** ** Executors *)

Section Executors.
Variable E : Env.

(** [req.Params[0]], when [len(req.Params) != 0]. *)
Definition firstParam (req : JSONRPCRequest) : option json :=
  match Req.Params req with
  | Some (p :: _) => Some p
  | _ => None
  end.

Definition handleGetTransactionInfoByBlockNum (req : JSONRPCRequest) (w : World E)
  : JSONRPCResponse * World E :=
  match firstParam req with
  | None => (jsonError (Req.ID req) (-32602) "Invalid params", w)
  | Some p =>
    match unmarshalInt64 p 0 with
    | None =>
      (jsonError (Req.ID req) (-32602)
         "Invalid params: must be integer block number", w)
    | Some blockId =>
      let postData := JObject [("num", JNumber (Integer blockId))] in
      let txInfoBlockUrl :=
        tronRestEndpoint E ++ "/wallet/gettransactioninfobyblocknum" in
      match http_Post E txInfoBlockUrl postData w with
      | (PostFailed err, w') =>
        (jsonError (Req.ID req) (-32603) ("Internal error: " ++ err), w')
      | (PostReplied respBody, w') =>
        match unmarshalTxInfos respBody with
        | None =>
          (jsonError (Req.ID req) (-32603)
             "Invalid response from TronNode REST", w')
        | Some respJson =>
          ({| Resp.Jsonrpc := "2.0"; Resp.ID := Req.ID req;
              Resp.Result := Some (marshalTxInfos respJson);
              Resp.Error := None |}, w')
        end
      end
    end
  end.

(** [fmt.Sprintf("%s/%s.json", traceDir, txId)] *)
Definition traceFilePath (txId : string) : string :=
  traceDir ++ "/" ++ txId ++ ".json".

Definition handleDebugTransactionTrace (req : JSONRPCRequest) : JSONRPCResponse :=
  match firstParam req with
  | None => jsonError (Req.ID req) (-32602) "Invalid params"
  | Some p =>
    match unmarshalString p "" with
    | None =>
      jsonError (Req.ID req) (-32602) "Invalid params: must be string TxId"
    | Some txId =>
      match os_ReadFile E (traceFilePath txId) with
      | None => jsonError (Req.ID req) (-32603) "cannot read trace file"
      | Some fileData =>
        match unmarshalInterface fileData with
        | None => jsonError (Req.ID req) (-32603) "Invalid JSON in trace file"
        | Some traceJson =>
          {| Resp.Jsonrpc := "2.0"; Resp.ID := Req.ID req;
             Resp.Result := traceJson; Resp.Error := None |}
        end
      end
    end
  end.

Definition forwardAndReturn (req : JSONRPCRequest) (targetURL : string)
  (w : World E) : JSONRPCResponse * World E :=
  let reqBytes := marshalRequest req in
  match http_Post E targetURL reqBytes w with
  | (PostFailed err, w') =>
    (jsonError (Req.ID req) (-32603) ("Internal error: " ++ err), w')
  | (PostReplied respBody, w') =>
    match unmarshalResponse respBody with
    | None =>
      (jsonError (Req.ID req) (-32603)
         "Invalid response from forwarded service", w')
    | Some forwardResp =>
      ({| Resp.Jsonrpc := Resp.Jsonrpc forwardResp; Resp.ID := Req.ID req;
          Resp.Result := Resp.Result forwardResp;
          Resp.Error := Resp.Error forwardResp |}, w')
    end
  end.

(** The loop [for i, r := range reqs { responses[i] = ... }]: one REST
    exchange after the other, in batch order. *)
Fixpoint handleBatchGetTransactionInfo (reqs : list JSONRPCRequest) (w : World E)
  : list JSONRPCResponse * World E :=
  match reqs with
  | [] => ([], w)
  | r :: rest =>
    let '(resp, w1) := handleGetTransactionInfoByBlockNum r w in
    let '(resps, w2) := handleBatchGetTransactionInfo rest w1 in
    (resp :: resps, w2)
  end.

(** The body of the goroutine started for index [idx]: it reads only
    [reqs[idx]] and stores only [responses[idx]]. *)
Definition traceGoroutine (reqs : list JSONRPCRequest) (idx : nat)
  (responses : list JSONRPCResponse) : list JSONRPCResponse :=
  match reqs !! idx with
  | None => responses
  | Some r =>
    match firstParam r with
    | None => <[idx := jsonError (Req.ID r) (-32602) "Invalid params"]> responses
    | Some p =>
      match unmarshalString p "" with
      | None =>
        <[idx := jsonError (Req.ID r) (-32602)
                   "Invalid params: must be string TxId"]> responses
      | Some txId =>
        match os_ReadFile E (traceFilePath txId) with
        | None =>
          <[idx := jsonError (Req.ID r) (-32603) "cannot read trace file"]>
            responses
        | Some fileData =>
          match unmarshalInterface fileData with
          | None =>
            <[idx := jsonError (Req.ID r) (-32603)
                       "Invalid JSON in trace file"]> responses
          | Some traceJson =>
            <[idx := {| Resp.Jsonrpc := "2.0"; Resp.ID := Req.ID r;
                        Resp.Result := traceJson; Resp.Error := None |}]>
              responses
          end
        end
      end
    end
  end.

(** [make([]JSONRPCResponse, len(reqs))], then one goroutine per index; the
    stores happen in the order the goroutines complete, and [wg.Wait()]
    returns after the last one. *)
Definition handleBatchDebugTransactionTrace (reqs : list JSONRPCRequest)
  : list JSONRPCResponse :=
  foldl (fun responses idx => traceGoroutine reqs idx responses)
        (replicate (length reqs) zeroResponse)
        (completionOrder E (length reqs)).

Definition forwardBatchToJSONRPC (reqs : list JSONRPCRequest)
  (originalArr : list json) (targetURL : string) (w : World E)
  : slice JSONRPCResponse * World E :=
  let originalBody := JArray originalArr in
  match http_Post E targetURL originalBody w with
  | (PostFailed err, w') =>
    (Some (createErrorResponsesForBatch reqs (-32603) ("Internal error: " ++ err)),
     w')
  | (PostReplied respBody, w') =>
    match unmarshalResponses respBody with
    | Some batchResp => (batchResp, w')
    | None =>
      match unmarshalResponse respBody with
      | Some singleResp =>
        match Resp.ID singleResp with
        | Some _ => (Some [singleResp], w')
        | None =>
          (Some (createErrorResponsesForBatch reqs (-32603)
                   "Invalid response from forwarded service"), w')
        end
      | None =>
        (Some (createErrorResponsesForBatch reqs (-32603)
                 "Invalid response from forwarded service"), w')
      end
    end
  end.

(** ** Method router, single mode *)

Definition handleSingleRequest (req : JSONRPCRequest) (w : World E)
  : JSONRPCResponse * World E :=
  if negb (String.eqb (Req.Jsonrpc req) "2.0") then
    (jsonError (Req.ID req) (-32600) "Invalid Request", w)
  else if String.eqb (Req.Method req) "debug_traceBlockByHash" then
    handleGetTransactionInfoByBlockNum req w
  else if String.eqb (Req.Method req) "eth_debugTransactionTrace" then
    (handleDebugTransactionTrace req, w)
  else forwardAndReturn req (tronJSONRPCEndpoint E) w.

(** ** Response assembler *)

(** What is written to the [http.ResponseWriter]; [Panicked] stands for a
    run-time panic of the handler (an index out of range), after which
    nothing is written. *)
Inductive Written :=
| Nothing
| Object (resp : JSONRPCResponse)
| Array (responses : slice JSONRPCResponse)
| Literal (bytes : string)
| Panicked.

Definition sendJSONRPCResponse (resp : JSONRPCResponse) : Written :=
  match Resp.ID resp with
  | None => Nothing
  | Some _ => Object resp
  end.

Definition sendBatchResponse (responses : slice JSONRPCResponse) : Written :=
  Array responses.

Definition sendError (id : any) (code : Z) (message : string) : Written :=
  Object {| Resp.Jsonrpc := "2.0"; Resp.ID := id; Resp.Result := None;
            Resp.Error := Some (errorObject code message) |}.

(** ** Envelope parser and dispatcher *)

(** [io.ReadAll(r.Body)]: a read error, or the bytes of the request. *)
Inductive Incoming :=
| ReadError
| Received (body : Body).

(** The guard loop over the decoded batch: is some method different from
    the first one? *)
Definition mixedMethods (allMethod : string) (reqs : list JSONRPCRequest) : bool :=
  existsb (fun r => negb (String.eqb (Req.Method r) allMethod)) reqs.

(** The [case []interface{}] branch of [handleJSONRPC], once the array is
    known not to be empty.  [reqs[0]] on an empty slice would panic; the
    decoder never returns one for a non-empty array. *)
Definition handleBatch (v : list json) (w : World E) : Written * World E :=
  match parseBatchRequests v with
  | (_, Some errs) => (sendBatchResponse (Some errs), w)
  | (None, None) => (Panicked, w)
  | (Some reqs, None) =>
    match reqs with
    | [] => (Panicked, w)
    | first :: _ =>
      let allMethod := Req.Method first in
      if mixedMethods allMethod reqs then
        (sendBatchResponse
           (Some (createErrorResponsesForBatch reqs (-32601)
                    "Mixed methods not supported")), w)
      else if String.eqb allMethod "debug_traceBlockByHash" then
        let '(responses, w') := handleBatchGetTransactionInfo reqs w in
        (sendBatchResponse (Some responses), w')
      else if String.eqb allMethod "eth_debugTransactionTrace" then
        (sendBatchResponse (Some (handleBatchDebugTransactionTrace reqs)), w)
      else
        let '(responses, w') :=
          forwardBatchToJSONRPC reqs v (tronJSONRPCEndpoint E) w in
        (sendBatchResponse responses, w')
    end
  end.

Definition handleJSONRPC (r : Incoming) (w : World E) : Written * World E :=
  match r with
  | ReadError =>
    (sendError None (-32603) "Internal error: unable to read request body", w)
  | Received Malformed => (sendError None (-32700) "Parse error: invalid JSON", w)
  | Received (Document raw) =>
    match raw with
    | JObject v =>
      match parseSingleRequest v with
      | None => (sendError None (-32700) "Parse error: invalid request object", w)
      | Some req =>
        let '(resp, w') := handleSingleRequest req w in
        (sendJSONRPCResponse resp, w')
      end
    | JArray v =>
      match v with
      | [] => (Literal "[]", w)
      | _ :: _ => handleBatch v w
      end
    | _ => (sendError None (-32700) "Parse error: invalid structure", w)
    end
  end.

End Executors.

(** ** Notions used in the statements *)

(** A batch element that the call decoder refuses. *)
Definition undecodable (elem : json) : bool :=
  match unmarshalRequest elem with
  | None => true
  | Some _ => false
  end.

(** The [code] member of a Response's error object, when it has one. *)
Definition errorCode (resp : JSONRPCResponse) : option Z :=
  match Resp.Error resp with
  | Some (JObject (("code", JNumber (Integer c)) :: _)) => Some c
  | _ => None
  end.

(** Response [r] answers Call [q]: it carries the Call's id. *)
Definition answers (q : JSONRPCRequest) (r : JSONRPCResponse) : Prop :=
  Resp.ID r = Req.ID q.


(** Protocol version "2.0" and exactly one of result and error. *)
Definition wellFormed (r : JSONRPCResponse) : Prop :=
  Resp.Jsonrpc r = "2.0" /\ (is_Some (Resp.Result r) <-> Resp.Error r = None).

(** The Responses that a written body holds. *)
Definition emitted (out : Written) (r : JSONRPCResponse) : Prop :=
  match out with
  | Object r' => r = r'
  | Array (Some l) => r ∈ l
  | _ => False
  end.

(** The value of the member that decides the [ID] field of a decoded
    object: the last one whose name selects the field. *)
Fixpoint idMember (ms : list (string * json)) : option json :=
  match ms with
  | [] => None
  | (key, v) :: rest =>
    match idMember rest with
    | Some v' => Some v'
    | None => if selects key "id" then Some v else None
    end
  end.

(** The value of the last member of an object whose name selects the field
    [name], and the string the last such member holds when it is one. *)
Fixpoint lastMember (name : string) (ms : list (string * json)) : option json :=
  match ms with
  | [] => None
  | (key, v) :: rest =>
    match lastMember name rest with
    | Some v' => Some v'
    | None => if selects key name then Some v else None
    end
  end.

Fixpoint lastString (name : string) (ms : list (string * json)) : option string :=
  match ms with
  | [] => None
  | (key, v) :: rest =>
    match lastString name rest with
    | Some s => Some s
    | None =>
      match v with
      | JString s => if selects key name then Some s else None
      | _ => None
      end
    end
  end.

(** The transaction identifier a trace Call names: its first parameter when
    that is a string, the empty identifier when it is [null]. *)
Definition tracedTx (req : JSONRPCRequest) : option string :=
  match Req.Params req with
  | Some (JString txId :: _) => Some txId
  | Some (JNull :: _) => Some ""
  | _ => None
  end.

(** The file of a transaction under the trace directory. *)
Definition traceFileOf (txId : string) : string :=
  "/project/trace/" ++ txId ++ ".json".

(** An error Response: protocol version "2.0", the id [id], no result, and
    an error object with the code [code] and the message [message]. *)
Definition reportsError (r : JSONRPCResponse) (id : any) (code : Z)
  (message : string) : Prop :=
  Resp.Jsonrpc r = "2.0"
  /\ Resp.ID r = id
  /\ Resp.Result r = None
  /\ Resp.Error r =
       Some (JObject [("code", JNumber (Integer code)); ("message", JString message)]).

(** A document holds a number literal that does not read as a [float64]:
    it is out of range, or its text is not that of a number. *)
Definition outOfRange (doc : json) : Prop := generic doc = None.

(** The first parameter is an integer that fits a block number. *)
Definition isInt64 (p : json) : Prop :=
  exists z, p = JNumber (Integer z) /\ (minInt64 <= z <= maxInt64)%Z.

(** The two methods the proxy serves itself. *)
Definition served (method : string) : bool :=
  (method =? "debug_traceBlockByHash") || (method =? "eth_debugTransactionTrace").

(** The request [r] reached the forward proxy, which posted it to the
    JSON-RPC endpoint of the node from the world [w] and got the reply
    [respBody]: [r] is a batch whose Calls all decode and name one method
    that the proxy does not serve itself, posted as the array; or an object
    that decodes to a Call of version "2.0" for such a method, posted as
    the encoding of that Call. *)
Definition forwardedExchange (E : Env) (r : Incoming) (w : World E)
  (respBody : Body) : Prop :=
  (exists arr reqs m w',
      r = Received (Document (JArray arr))
      /\ parseBatchRequests arr = (Some reqs, None)
      /\ reqs <> []
      /\ Forall (fun q => Req.Method q = m) reqs
      /\ served m = false
      /\ http_Post E (tronJSONRPCEndpoint E) (JArray arr) w = (PostReplied respBody, w'))
  \/ (exists v req w',
      r = Received (Document (JObject v))
      /\ unmarshalRequest (JObject v) = Some req
      /\ Req.Jsonrpc req = "2.0"
      /\ served (Req.Method req) = false
      /\ http_Post E (tronJSONRPCEndpoint E) (marshalRequest req) w
           = (PostReplied respBody, w')).

(** The Response [resp] has the version, the result and the error that an
    object with the members [ms] gives: the version is the last string that
    a [jsonrpc] member holds, the result and the error are what the last
    [result] member and the last [error] member decode to, nil without such
    a member. *)
Definition givenBy (ms : list (string * json)) (resp : JSONRPCResponse) : Prop :=
  Resp.Jsonrpc resp = default "" (lastString "jsonrpc" ms)
  /\ Some (Resp.Result resp) = default (Some None) (unmarshalGeneric <$> lastMember "result" ms)
  /\ Some (Resp.Error resp) = default (Some None) (unmarshalGeneric <$> lastMember "error" ms).

(** The members of a value read as an object; [null] reads as an object
    without members. *)
Definition membersOf (v : json) : option (list (string * json)) :=
  match v with
  | JObject ms => Some ms
  | JNull => Some []
  | _ => None
  end.

(** [resp] has the version, the result and the error that the reply
    [respBody] gives, as the document it is or in one of the elements of
    the array it is. *)
Definition passedThrough (respBody : Body) (resp : JSONRPCResponse) : Prop :=
  exists v ms,
    (respBody = Document v
     \/ exists elems, respBody = Document (JArray elems) /\ v ∈ elems)
    /\ membersOf v = Some ms
    /\ givenBy ms resp.

(** A Call of the trace method for a transaction whose file holds the
    document [null]. *)
Definition nullTraceCall (E : Env) (req : JSONRPCRequest) : Prop :=
  Req.Method req = "eth_debugTransactionTrace"
  /\ exists txId, tracedTx req = Some txId
       /\ os_ReadFile E (traceFileOf txId) = Some (Document JNull).

(** The request [r] is or holds such a Call, and [resp] has the Call's id,
    no result and no error. *)
Definition traceOfNull (E : Env) (r : Incoming) (resp : JSONRPCResponse) : Prop :=
  exists req,
    ((exists v, r = Received (Document (JObject v))
                /\ unmarshalRequest (JObject v) = Some req)
     \/ (exists arr reqs, r = Received (Document (JArray arr))
                          /\ parseBatchRequests arr = (Some reqs, None)
                          /\ req ∈ reqs))
    /\ nullTraceCall E req
    /\ resp = {| Resp.Jsonrpc := "2.0"; Resp.ID := Req.ID req;
                 Resp.Result := None; Resp.Error := None |}.

(** An interface that a decode can produce: nil, or a value that is not
    [null]. *)
Definition decodable (a : any) : Prop := a <> Some JNull.

(** The values a [string] field accepts, and those a [[]json.RawMessage]
    field accepts. *)
Definition stringOrNull (v : json) : bool :=
  match v with
  | JString _ | JNull => true
  | _ => false
  end.

Definition arrayOrNull (v : json) : bool :=
  match v with
  | JArray _ | JNull => true
  | _ => false
  end.

(** A member that makes the call decoder fail: it names [jsonrpc] or
    [method] with a value that is neither a string nor null, or [params]
    with a value that is neither an array nor null. *)
Definition badMember (m : string * json) : bool :=
  (selects (fst m) "jsonrpc" || selects (fst m) "method") && negb (stringOrNull (snd m))
  || selects (fst m) "params" && negb (arrayOrNull (snd m)).

(** The handler ran to its end: it wrote a body, or deliberately wrote
    none. *)
Definition completes (out : Written) : Prop :=
  match out with
  | Panicked => False
  | _ => True
  end.

(** The names of the members of an encoded object, in order. *)
Definition memberNames (v : json) : list string :=
  match v with
  | JObject ms => map fst ms
  | _ => []
  end.

(** ** Example environments and data

    A node that answers every POST with the reply [reply] computes from the
    URL and the body, and counts the exchanges; a trace directory [files];
    goroutines that complete in reverse order. *)

Definition scripted (reply : string -> json -> PostResult)
  (files : string -> option Body) : Env :=
  {| World := nat;
     tronJSONRPCEndpoint := "http://tron:8545/jsonrpc";
     tronRestEndpoint := "http://tron:8090";
     http_Post := fun url body n => (reply url body, S n);
     os_ReadFile := files;
     completionOrder := fun n => rev (seq 0 n);
     completionOrder_perm := fun n => Permutation_sym (Permutation_rev (seq 0 n)) |}.

Definition noFiles : string -> option Body := fun _ => None.

Definition unreachable : string -> json -> PostResult :=
  fun _ _ => PostFailed "connection refused".

(** [{"id":id,"jsonrpc":version,"method":method,"params":params}], members
    in the order [json.Marshal] writes a map. *)
Definition call (id : json) (version method : string) (params : list json) : json :=
  JObject [("id", id); ("jsonrpc", JString version);
           ("method", JString method); ("params", JArray params)].

Definition blockNumberCall (id : Z) : json :=
  call (JNumber (Integer id)) "2.0" "eth_blockNumber" [].

Definition chainIdCall (id : Z) : json :=
  call (JNumber (Integer id)) "2.0" "eth_chainId" [].

Definition decodedCall (id : Z) (method : string) (params : list json)
  : JSONRPCRequest :=
  {| Req.Jsonrpc := "2.0"; Req.Method := method; Req.Params := Some params;
     Req.ID := Some (JNumber (Integer id)) |}.

(** An upstream that answers a batch with an array holding one Response,
    for the second Call. *)
Definition oneForTwo : string -> json -> PostResult :=
  fun _ _ =>
    PostReplied (Document (JArray
      [JObject [("jsonrpc", JString "2.0"); ("id", JNumber (Integer 2));
                ("result", JString "0x10")]])).

(** An upstream that answers every Call with the id 99. *)
Definition wrongId : string -> json -> PostResult :=
  fun _ _ =>
    PostReplied (Document (JObject
      [("jsonrpc", JString "2.0"); ("id", JNumber (Integer 99));
       ("result", JString "0x10")])).

(** An upstream that answers with one Response object that has no id. *)
Definition noId : string -> json -> PostResult :=
  fun _ _ =>
    PostReplied (Document (JObject
      [("jsonrpc", JString "2.0"); ("result", JString "0x10")])).

(** An upstream that answers with the empty object, and one that answers
    with a result and an error at once, under version "1.0". *)
Definition emptyObject : string -> json -> PostResult :=
  fun _ _ => PostReplied (Document (JObject [])).

Definition resultAndError : string -> json -> PostResult :=
  fun _ _ =>
    PostReplied (Document (JObject
      [("jsonrpc", JString "1.0"); ("id", JNumber (Integer 7));
       ("result", JString "0x10");
       ("error", errorObject (-32000) "execution reverted")])).

(** An upstream whose reply carries an integer that no [float64] holds and
    a member that a Response does not have, and one whose result is
    [null]. *)
Definition bigResultReply : list (string * json) :=
  [("jsonrpc", JString "2.0"); ("id", JNumber (Integer 99));
   ("result", JNumber (Integer 12345678901234567890));
   ("latency", JNumber (Integer 3))].

Definition bigResult : string -> json -> PostResult :=
  fun _ _ => PostReplied (Document (JObject bigResultReply)).

Definition nullResultReply : list (string * json) :=
  [("jsonrpc", JString "2.0"); ("id", JNumber (Integer 7)); ("result", JNull)].

Definition nullResult : string -> json -> PostResult :=
  fun _ _ => PostReplied (Document (JObject nullResultReply)).

(** What a node answers for the transactions of a block: records with more
    fields than the four the translator keeps. *)
Definition blockInfoDocument : json :=
  JArray [JObject [("id", JString "ab"); ("fee", JNumber (Integer 1100000));
                   ("blockNumber", JNumber (Integer 100));
                   ("contractResult", JArray [JString ""])]].

Definition restNode : string -> json -> PostResult :=
  fun _ _ => PostReplied (Document blockInfoDocument).

(** A trace directory that holds one file, for the transaction abc123. *)
Definition traceDocument : json :=
  JObject [("failed", JBool false); ("gas", JNumber (Integer 21000))].

Definition oneTrace : string -> option Body :=
  fun path =>
    if String.eqb path "/project/trace/abc123.json"
    then Some (Document traceDocument) else None.

(** A trace directory whose files all hold the object
    [{"n":12345678901234567890,"x":1.0,"e":1e3}], and one whose files all
    hold [1e400]. *)
Definition numbersTrace : string -> option Body :=
  fun _ =>
    Some (Document (JObject
      [("n", JNumber (Integer 12345678901234567890));
       ("x", JNumber (Fractional "1.0")); ("e", JNumber (Fractional "1e3"))])).

Definition hugeTrace : string -> option Body :=
  fun _ => Some (Document (JNumber (Fractional "1e400"))).

(** A trace directory whose files all hold the document [null]. *)
Definition nullTraces : string -> option Body :=
  fun _ => Some (Document JNull).

(** ** The call decoder on a batch *)

Lemma parseBatchLoop_acc (arr : list json) (reqs : list JSONRPCRequest)
  (errors : list JSONRPCResponse) :
  parseBatchLoop arr reqs errors =
    ((reqs ++ omap unmarshalRequest arr)%list,
     (errors ++ replicate (length (List.filter undecodable arr)) batchParseError)%list).
Proof.
  revert reqs errors.
  induction arr as [|elem rest IH]; intros reqs errors; simpl.
  - by rewrite !app_nil_r.
  - unfold undecodable at 1.
    destruct (unmarshalRequest elem) as [req|]; rewrite IH; simpl;
      by rewrite <- app_assoc.
Qed.

Lemma filter_undecodable_nil arr :
  List.filter undecodable arr = [] ->
  mapM unmarshalRequest arr = Some (omap unmarshalRequest arr).
Proof.
  induction arr as [|elem rest IH]; simpl; intros Hnil; [done|].
  unfold undecodable in Hnil.
  destruct (unmarshalRequest elem) as [req|] eqn:Hdec; [|done].
  by rewrite (IH Hnil).
Qed.

Lemma parseBatchRequests_decoded arr reqs errs :
  parseBatchRequests arr = (Some reqs, errs) ->
  errs = None /\ mapM unmarshalRequest arr = Some reqs.
Proof.
  unfold parseBatchRequests. rewrite parseBatchLoop_acc. simpl.
  destruct (List.filter undecodable arr) as [|bad rest] eqn:Hbad; simpl.
  - intros [= <- <-]. split; [done|]. by apply filter_undecodable_nil.
  - discriminate.
Qed.

Lemma parseBatchRequests_length arr reqs errs :
  parseBatchRequests arr = (Some reqs, errs) -> length reqs = length arr.
Proof.
  intros H. apply parseBatchRequests_decoded in H as [_ H].
  symmetry. by eapply length_mapM.
Qed.

Lemma parseBatchRequests_failed arr :
  Exists (fun elem => unmarshalRequest elem = None) arr ->
  parseBatchRequests arr =
    (None, Some (replicate (length (List.filter undecodable arr)) batchParseError))
  /\ 0 < length (List.filter undecodable arr) <= length arr.
Proof.
  intros Hex.
  assert (0 < length (List.filter undecodable arr) <= length arr) as Hlen.
  { induction Hex as [elem rest Hnone|elem rest _ IH]; simpl.
    - assert (undecodable elem = true) as -> by (unfold undecodable; by rewrite Hnone).
      pose proof (List.filter_length_le undecodable rest). simpl. lia.
    - destruct (undecodable elem); simpl; lia. }
  split; [|done].
  unfold parseBatchRequests. rewrite parseBatchLoop_acc. simpl.
  rewrite length_replicate.
  destruct (Nat.ltb_spec 0 (length (List.filter undecodable arr))); [done|lia].
Qed.

(** ** The concurrent file fetcher *)

Section TraceBatch.
Variable E : Env.

(** A goroutine stores at its own index what the single-call handler
    returns for its own Call. *)
Lemma traceGoroutine_store reqs idx responses :
  traceGoroutine E reqs idx responses =
    match reqs !! idx with
    | None => responses
    | Some r => <[idx := handleDebugTransactionTrace E r]> responses
    end.
Proof.
  unfold traceGoroutine, handleDebugTransactionTrace.
  destruct (reqs !! idx) as [r|]; [|done].
  destruct (firstParam r) as [p|]; [|done].
  destruct (unmarshalString p "") as [txId|]; [|done].
  destruct (os_ReadFile E (traceFilePath txId)) as [fileData|]; [|done].
  by destruct (unmarshalInterface fileData).
Qed.

(** The slots after the goroutines listed in [order] have completed, in
    that order: a slot whose goroutine has run holds its own result, every
    other slot is untouched. *)
Lemma trace_slots (reqs : list JSONRPCRequest) (order : list nat)
  (responses : list JSONRPCResponse) :
  length responses = length reqs ->
  let out := foldl (fun rs idx => traceGoroutine E reqs idx rs) responses order in
  length out = length reqs /\
  forall k, out !! k =
    if decide (k ∈ order) then handleDebugTransactionTrace E <$> reqs !! k
    else responses !! k.
Proof.
  intros Hlen. cbv zeta. induction order as [|idx order IH] using rev_ind.
  - split; [done|]. intros k. by rewrite decide_False by apply not_elem_of_nil.
  - destruct IH as [IHlen IHget]. rewrite foldl_snoc, traceGoroutine_store.
    set (prev := foldl (fun rs i => traceGoroutine E reqs i rs) responses order) in *.
    destruct (reqs !! idx) as [r|] eqn:Hidx.
    + split; [by rewrite length_insert|]. intros k.
      destruct (decide (k = idx)) as [->|Hne].
      * rewrite list_lookup_insert_eq
          by (rewrite IHlen; by eapply lookup_lt_Some).
        rewrite decide_True by (apply elem_of_app; right; apply list_elem_of_singleton; done).
        by rewrite Hidx.
      * rewrite list_lookup_insert_ne by done. rewrite IHget.
        destruct (decide (k ∈ order)) as [Hin|Hnin].
        -- rewrite decide_True by (apply elem_of_app; by left). done.
        -- rewrite decide_False; [done|].
           rewrite elem_of_app, list_elem_of_singleton. tauto.
    + split; [done|]. intros k. rewrite IHget.
      destruct (decide (k ∈ order)) as [Hin|Hnin];
        destruct (decide (k ∈ (order ++ [idx])%list)) as [Hin'|Hnin']; try done.
      * exfalso. apply Hnin'. apply elem_of_app. by left.
      * apply elem_of_app in Hin' as [Hin'|Hin']; [done|].
        apply list_elem_of_singleton in Hin' as ->. rewrite Hidx. simpl.
        apply lookup_ge_None. rewrite Hlen. by apply lookup_ge_None.
Qed.

(** Whatever the order of completion, the batch is the single-call handler
    applied to each Call. *)
Lemma handleBatchDebugTransactionTrace_map reqs :
  handleBatchDebugTransactionTrace E reqs = map (handleDebugTransactionTrace E) reqs.
Proof.
  unfold handleBatchDebugTransactionTrace.
  destruct (trace_slots reqs (completionOrder E (length reqs))
              (replicate (length reqs) zeroResponse)) as [Hlen Hget].
  { apply length_replicate. }
  apply list_eq. intros k. rewrite Hget.
  change (map (handleDebugTransactionTrace E) reqs)
    with (handleDebugTransactionTrace E <$> reqs).
  rewrite list_lookup_fmap.
  destruct (decide (k ∈ completionOrder E (length reqs))) as [Hin|Hnin]; [done|].
  rewrite completionOrder_perm, elem_of_seq in Hnin.
  assert (length reqs <= k) as Hk by lia.
  rewrite (proj2 (lookup_ge_None reqs k) Hk). simpl.
  apply lookup_ge_None. by rewrite length_replicate.
Qed.

Lemma handleDebugTransactionTrace_ID req :
  Resp.ID (handleDebugTransactionTrace E req) = Req.ID req.
Proof.
  unfold handleDebugTransactionTrace.
  destruct (firstParam req) as [p|]; [|done].
  destruct (unmarshalString p "") as [txId|]; [|done].
  destruct (os_ReadFile E (traceFilePath txId)) as [fileData|]; [|done].
  by destruct (unmarshalInterface fileData).
Qed.

End TraceBatch.

(** The single-call trace handler takes the transaction identifier from
    the first parameter and reads the file of that name under the trace
    directory. *)
Lemma firstParam_tracedTx (req : JSONRPCRequest) :
  (p ← firstParam req; unmarshalString p "") = tracedTx req.
Proof.
  unfold firstParam, tracedTx.
  by destruct (Req.Params req) as [[|p rest]|].
Qed.

Lemma traceFilePath_traceFileOf (txId : string) :
  traceFilePath txId = traceFileOf txId.
Proof. reflexivity. Qed.

Lemma trace_of_tx (E : Env) (req : JSONRPCRequest) (txId : string) :
  tracedTx req = Some txId ->
  handleDebugTransactionTrace E req =
    match os_ReadFile E (traceFileOf txId) with
    | None => jsonError (Req.ID req) (-32603) "cannot read trace file"
    | Some fileData =>
      match unmarshalInterface fileData with
      | None => jsonError (Req.ID req) (-32603) "Invalid JSON in trace file"
      | Some traceJson =>
        {| Resp.Jsonrpc := "2.0"; Resp.ID := Req.ID req;
           Resp.Result := traceJson; Resp.Error := None |}
      end
    end.
Proof.
  rewrite <- firstParam_tracedTx. unfold handleDebugTransactionTrace.
  destruct (firstParam req) as [p|]; [|done]. simpl.
  intros ->. by rewrite traceFilePath_traceFileOf.
Qed.

Lemma trace_without_tx (E : Env) (req : JSONRPCRequest) :
  tracedTx req = None ->
  exists msg, handleDebugTransactionTrace E req = jsonError (Req.ID req) (-32602) msg.
Proof.
  rewrite <- firstParam_tracedTx. unfold handleDebugTransactionTrace.
  destruct (firstParam req) as [p|]; [|by eexists]. simpl.
  intros ->. by eexists.
Qed.

Lemma unmarshalInterface_None (fileData : Body) :
  unmarshalInterface fileData = None <->
  fileData = Malformed \/ exists doc, fileData = Document doc /\ outOfRange doc.
Proof.
  unfold outOfRange. destruct fileData as [|doc]; simpl.
  - split; [by left|done].
  - unfold unmarshalGeneric. split.
    + intros Hnone. right. exists doc. split; [done|].
      destruct (generic doc) eqn:Hgen; [|done]. by destruct doc.
    + intros [|(doc' & [= <-] & Hgen)]; [done|].
      rewrite Hgen. by destruct doc.
Qed.

(** An internal error of the single-call trace handler tells that the file
    the Call names is unreadable, is not JSON, or holds a number out of
    range. *)
Lemma internal_error_own_file (E : Env) (req : JSONRPCRequest) :
  errorCode (handleDebugTransactionTrace E req) = Some (-32603)%Z ->
  exists txId,
    tracedTx req = Some txId /\
    (os_ReadFile E (traceFileOf txId) = None \/
     os_ReadFile E (traceFileOf txId) = Some Malformed \/
     exists doc, os_ReadFile E (traceFileOf txId) = Some (Document doc)
                 /\ outOfRange doc).
Proof.
  destruct (tracedTx req) as [txId|] eqn:Htx.
  - rewrite (trace_of_tx E req txId Htx). intros Hcode. exists txId.
    split; [done|].
    destruct (os_ReadFile E (traceFileOf txId)) as [fileData|]; [|by left].
    destruct (unmarshalInterface fileData) eqn:Hdec; [done|].
    apply unmarshalInterface_None in Hdec as [->|(doc & -> & Hout)]; eauto.
  - destruct (trace_without_tx E req Htx) as [msg ->]. done.
Qed.

(** The Response of the single-call trace handler is a function of the Call
    and of the one file the Call names. *)
Lemma handleDebugTransactionTrace_own_file (E E' : Env) (req : JSONRPCRequest) :
  (forall txId, tracedTx req = Some txId ->
     os_ReadFile E' (traceFileOf txId) = os_ReadFile E (traceFileOf txId)) ->
  handleDebugTransactionTrace E' req = handleDebugTransactionTrace E req.
Proof.
  intros Hsame. destruct (tracedTx req) as [txId|] eqn:Htx.
  - rewrite !(trace_of_tx _ req txId Htx). by rewrite (Hsame txId eq_refl).
  - rewrite <- firstParam_tracedTx in Htx. unfold handleDebugTransactionTrace.
    destruct (firstParam req) as [p|]; [|done]. simpl in Htx. by rewrite Htx.
Qed.

(** ** The batch path of the dispatcher *)

Section BatchPath.
Variable E : Env.

Lemma handleJSONRPC_batch (arr : list json) (w : World E) :
  arr <> [] ->
  handleJSONRPC E (Received (Document (JArray arr))) w = handleBatch E arr w.
Proof. by destruct arr. Qed.

Lemma decoded_batch_nonempty (arr : list json) reqs :
  parseBatchRequests arr = (Some reqs, None) -> arr <> [] -> reqs <> [].
Proof.
  intros Hparse Harr ->. apply parseBatchRequests_length in Hparse.
  by destruct arr.
Qed.

Lemma mixedMethods_true allMethod reqs r :
  r ∈ reqs -> Req.Method r <> allMethod -> mixedMethods allMethod reqs = true.
Proof.
  intros Hin Hne. unfold mixedMethods. apply existsb_exists.
  exists r. split; [by apply list_elem_of_In|].
  apply negb_true_iff. by apply String.eqb_neq.
Qed.

Lemma mixedMethods_uniform m reqs :
  Forall (fun r => Req.Method r = m) reqs -> mixedMethods m reqs = false.
Proof.
  intros Hall. apply not_true_is_false. intros Hex.
  apply existsb_exists in Hex as (r & Hin & Hr).
  rewrite Forall_forall in Hall. apply list_elem_of_In, Hall in Hin.
  rewrite Hin, String.eqb_refl in Hr. done.
Qed.

(** What [handleBatch] does once the batch has decoded, route by route. *)
Lemma handleBatch_mixed arr first others (w : World E) :
  parseBatchRequests arr = (Some (first :: others), None) ->
  mixedMethods (Req.Method first) (first :: others) = true ->
  handleBatch E arr w =
    (Array (Some (createErrorResponsesForBatch (first :: others) (-32601)
                    "Mixed methods not supported")), w).
Proof. intros Hparse Hmix. unfold handleBatch. by rewrite Hparse, Hmix. Qed.

Lemma handleBatch_rest arr first others (w : World E) :
  parseBatchRequests arr = (Some (first :: others), None) ->
  Forall (fun r => Req.Method r = "debug_traceBlockByHash") (first :: others) ->
  handleBatch E arr w =
    (Array (Some (fst (handleBatchGetTransactionInfo E (first :: others) w))),
     snd (handleBatchGetTransactionInfo E (first :: others) w)).
Proof.
  intros Hparse Hall. unfold handleBatch. rewrite Hparse.
  assert (Req.Method first = "debug_traceBlockByHash") as Hfirst by (by inversion Hall).
  rewrite Hfirst, (mixedMethods_uniform _ _ Hall). simpl String.eqb. cbv iota.
  by destruct (handleBatchGetTransactionInfo E (first :: others) w).
Qed.

Lemma handleBatch_trace arr first others (w : World E) :
  parseBatchRequests arr = (Some (first :: others), None) ->
  Forall (fun r => Req.Method r = "eth_debugTransactionTrace") (first :: others) ->
  handleBatch E arr w =
    (Array (Some (map (handleDebugTransactionTrace E) (first :: others))), w).
Proof.
  intros Hparse Hall. unfold handleBatch. rewrite Hparse.
  assert (Req.Method first = "eth_debugTransactionTrace") as Hfirst by (by inversion Hall).
  rewrite Hfirst, (mixedMethods_uniform _ _ Hall). simpl String.eqb. cbv iota.
  by rewrite handleBatchDebugTransactionTrace_map.
Qed.

Lemma handleBatch_forward arr first others m (w : World E) :
  parseBatchRequests arr = (Some (first :: others), None) ->
  Forall (fun r => Req.Method r = m) (first :: others) ->
  m <> "debug_traceBlockByHash" -> m <> "eth_debugTransactionTrace" ->
  handleBatch E arr w =
    (Array (fst (forwardBatchToJSONRPC E (first :: others) arr
                   (tronJSONRPCEndpoint E) w)),
     snd (forwardBatchToJSONRPC E (first :: others) arr (tronJSONRPCEndpoint E) w)).
Proof.
  intros Hparse Hall Hm1 Hm2. unfold handleBatch. rewrite Hparse.
  assert (Req.Method first = m) as Hfirst by (by inversion Hall).
  rewrite Hfirst, (mixedMethods_uniform _ _ Hall).
  apply String.eqb_neq in Hm1, Hm2. rewrite Hm1, Hm2.
  by destruct (forwardBatchToJSONRPC E (first :: others) arr (tronJSONRPCEndpoint E) w).
Qed.

(** Every local executor answers Call by Call. *)
Lemma createErrorResponsesForBatch_aligned reqs code msg :
  Forall2 answers reqs (createErrorResponsesForBatch reqs code msg).
Proof.
  unfold createErrorResponsesForBatch.
  induction reqs as [|r rest IH]; simpl; constructor; done.
Qed.

Lemma handleGetTransactionInfoByBlockNum_ID req (w : World E) :
  Resp.ID (fst (handleGetTransactionInfoByBlockNum E req w)) = Req.ID req.
Proof.
  unfold handleGetTransactionInfoByBlockNum.
  destruct (firstParam req) as [p|]; [|done].
  destruct (unmarshalInt64 p 0) as [blockId|]; [|done].
  destruct (http_Post E _ _ w) as [[err|respBody] w']; [done|].
  by destruct (unmarshalTxInfos respBody).
Qed.

Lemma handleBatchGetTransactionInfo_aligned reqs (w : World E) :
  Forall2 answers reqs (fst (handleBatchGetTransactionInfo E reqs w)).
Proof.
  revert w. induction reqs as [|r rest IH]; intros w; simpl; [constructor|].
  pose proof (handleGetTransactionInfoByBlockNum_ID r w) as Hid.
  destruct (handleGetTransactionInfoByBlockNum E r w) as [resp w1].
  specialize (IH w1).
  destruct (handleBatchGetTransactionInfo E rest w1) as [resps w2].
  simpl in *. by constructor.
Qed.

Lemma trace_map_aligned reqs :
  Forall2 answers reqs (map (handleDebugTransactionTrace E) reqs).
Proof.
  induction reqs as [|r rest IH]; simpl; constructor; [|done].
  apply handleDebugTransactionTrace_ID.
Qed.

End BatchPath.

(** The guard fires as soon as two Calls of the decoded batch differ in
    their method. *)
Lemma mixed_batch_rejected_aux (E : Env) (arr : list json)
  (reqs : list JSONRPCRequest) (w : World E) :
  parseBatchRequests arr = (Some reqs, None) ->
  (exists r1 r2, r1 ∈ reqs /\ r2 ∈ reqs /\ Req.Method r1 <> Req.Method r2) ->
  handleJSONRPC E (Received (Document (JArray arr))) w =
    (Array (Some (createErrorResponsesForBatch reqs (-32601)
                    "Mixed methods not supported")), w).
Proof.
  intros Hparse (r1 & r2 & Hin1 & Hin2 & Hne).
  destruct reqs as [|first others]; [by apply elem_of_nil in Hin1|].
  assert (arr <> []) as Harr.
  { intros ->. apply parseBatchRequests_length in Hparse. done. }
  rewrite handleJSONRPC_batch by done.
  apply handleBatch_mixed; [done|].
  destruct (String.eqb_spec (Req.Method r1) (Req.Method first)) as [Heq|Hneq].
  - apply (mixedMethods_true _ _ r2); [done|congruence].
  - by apply (mixedMethods_true _ _ r1).
Qed.

(** Every Call of a batch gets the error, with its own id. *)
Lemma createErrorResponsesForBatch_reports (reqs : list JSONRPCRequest) (code : Z)
  (msg : string) :
  Forall2 (fun q r => reportsError r (Req.ID q) code msg) reqs
    (createErrorResponsesForBatch reqs code msg).
Proof.
  unfold createErrorResponsesForBatch.
  induction reqs as [|q rest IH]; constructor; [|done].
  by repeat split.
Qed.

(** ** The REST translator and the router, single mode *)

Lemma unmarshalInt64_isInt64 (p : json) :
  p <> JNull ->
  match unmarshalInt64 p 0 with
  | Some z => p = JNumber (Integer z) /\ (minInt64 <= z <= maxInt64)%Z
  | None => ~ isInt64 p
  end.
Proof.
  intros Hnull. destruct p as [|b|[z|lit]|s|elems|members]; simpl;
    try done; try (intros (z' & [=] & _)).
  destruct (Z.leb_spec minInt64 z), (Z.leb_spec z maxInt64); simpl;
    try (split; [done|lia]); intros (z' & [= <-] & Hrange); lia.
Qed.

Lemma firstParam_None (req : JSONRPCRequest) :
  firstParam req = None <-> len (Req.Params req) = 0.
Proof.
  unfold firstParam, len. destruct (Req.Params req) as [[|p rest]|]; simpl;
    split; done.
Qed.

(** In single mode a Call of another version than "2.0" is refused before
    any executor runs. *)
Lemma single_call_checks_version (E : Env) (req : JSONRPCRequest) (w : World E) :
  Req.Jsonrpc req <> "2.0" ->
  handleSingleRequest E req w =
    (jsonError (Req.ID req) (-32600) "Invalid Request", w).
Proof.
  intros Hver. unfold handleSingleRequest.
  apply String.eqb_neq in Hver. by rewrite Hver.
Qed.

Lemma selects_id_only (key : string) :
  selects key "id" = true ->
  selects key "jsonrpc" = false /\ selects key "method" = false /\
  selects key "params" = false.
Proof.
  unfold selects. intros Hid. apply String.eqb_eq in Hid.
  rewrite Hid. by vm_compute.
Qed.

Lemma requestMember_ID key v req req' :
  requestMember key v req = Some req' ->
  Req.ID req' = if selects key "id" then unmarshalAny v else Req.ID req.
Proof.
  unfold requestMember. intros Hmember.
  destruct (selects key "id") eqn:Hid.
  - destruct (selects_id_only key Hid) as (-> & -> & ->) in Hmember.
    by injection Hmember as <-.
  - destruct (selects key "jsonrpc").
    { destruct (unmarshalString v (Req.Jsonrpc req)); [|done].
      by injection Hmember as <-. }
    destruct (selects key "method").
    { destruct (unmarshalString v (Req.Method req)); [|done].
      by injection Hmember as <-. }
    destruct (selects key "params").
    { destruct (unmarshalRawSlice v); [|done]. by injection Hmember as <-. }
    by injection Hmember as <-.
Qed.

(** The decoded [ID] is what the last member naming it holds. *)
Lemma requestMembers_ID ms req req' :
  requestMembers ms req = Some req' ->
  Req.ID req' =
    match idMember ms with
    | Some v => unmarshalAny v
    | None => Req.ID req
    end.
Proof.
  revert req. induction ms as [|[key v] rest IH]; intros req; simpl.
  - by intros [= <-].
  - destruct (requestMember key v req) as [req1|] eqn:Hmember; [|done].
    intros Hrest. rewrite (IH _ Hrest).
    destruct (idMember rest); [done|].
    rewrite (requestMember_ID _ _ _ _ Hmember).
    by destruct (selects key "id").
Qed.

Lemma handleSingleRequest_ID (E : Env) (req : JSONRPCRequest) (w : World E) :
  Resp.ID (fst (handleSingleRequest E req w)) = Req.ID req.
Proof.
  unfold handleSingleRequest.
  destruct (negb (Req.Jsonrpc req =? "2.0")); [done|].
  destruct (Req.Method req =? "debug_traceBlockByHash").
  { apply handleGetTransactionInfoByBlockNum_ID. }
  destruct (Req.Method req =? "eth_debugTransactionTrace").
  { apply handleDebugTransactionTrace_ID. }
  unfold forwardAndReturn.
  destruct (http_Post E _ _ w) as [[err|respBody] w']; [done|].
  by destruct (unmarshalResponse respBody).
Qed.

(** ** The shape of the Responses *)

Section Shapes.
Variable E : Env.

Lemma jsonError_wellFormed id code msg : wellFormed (jsonError id code msg).
Proof. split; [done|]. simpl. split; [by intros [? ?]|done]. Qed.

Lemma result_wellFormed id v :
  wellFormed {| Resp.Jsonrpc := "2.0"; Resp.ID := id; Resp.Result := Some v;
                Resp.Error := None |}.
Proof. split; [done|]. simpl. split; [done|by eexists]. Qed.

Lemma batchParseError_wellFormed : wellFormed batchParseError.
Proof. apply (jsonError_wellFormed None). Qed.

Lemma rest_wellFormed req (w : World E) :
  wellFormed (fst (handleGetTransactionInfoByBlockNum E req w)).
Proof.
  unfold handleGetTransactionInfoByBlockNum.
  destruct (firstParam req) as [p|]; [|apply jsonError_wellFormed].
  destruct (unmarshalInt64 p 0) as [blockId|]; [|apply jsonError_wellFormed].
  destruct (http_Post E _ _ w) as [[err|respBody] w']; [apply jsonError_wellFormed|].
  destruct (unmarshalTxInfos respBody);
    [apply result_wellFormed|apply jsonError_wellFormed].
Qed.

Lemma rest_batch_wellFormed reqs (w : World E) :
  Forall wellFormed (fst (handleBatchGetTransactionInfo E reqs w)).
Proof.
  revert w. induction reqs as [|r rest IH]; intros w; simpl; [constructor|].
  pose proof (rest_wellFormed r w) as Hwf.
  destruct (handleGetTransactionInfoByBlockNum E r w) as [resp w1].
  specialize (IH w1).
  destruct (handleBatchGetTransactionInfo E rest w1) as [resps w2].
  simpl in *. by constructor.
Qed.

Lemma responseMember_given key v r r' :
  responseMember key v r = Some r' ->
  Resp.Jsonrpc r' =
    default (Resp.Jsonrpc r)
      (match v with
       | JString s => if selects key "jsonrpc" then Some s else None
       | _ => None
       end)
  /\ Some (Resp.Result r') =
       default (Some (Resp.Result r))
         (unmarshalGeneric <$> (if selects key "result" then Some v else None))
  /\ Some (Resp.Error r') =
       default (Some (Resp.Error r))
         (unmarshalGeneric <$> (if selects key "error" then Some v else None)).
Proof.
  unfold responseMember, selects.
  destruct (String.eqb_spec (foldName key) (foldName "jsonrpc")) as [->|_].
  { destruct v; try done; by intros [= <-]. }
  destruct (String.eqb_spec (foldName key) (foldName "id")) as [->|_].
  { destruct (unmarshalGeneric v); [|done]. intros [= <-]. by destruct v. }
  destruct (String.eqb_spec (foldName key) (foldName "result")) as [->|_].
  { destruct (unmarshalGeneric v) eqn:Hv; [|done]. intros [= <-]. simpl.
    rewrite Hv. by destruct v. }
  destruct (String.eqb_spec (foldName key) (foldName "error")) as [_|_].
  { destruct (unmarshalGeneric v) eqn:Hv; [|done]. intros [= <-]. simpl.
    rewrite Hv. by destruct v. }
  intros [= <-]. by destruct v.
Qed.

Lemma responseMembers_given ms r r' :
  responseMembers ms r = Some r' ->
  Resp.Jsonrpc r' = default (Resp.Jsonrpc r) (lastString "jsonrpc" ms)
  /\ Some (Resp.Result r') =
       default (Some (Resp.Result r)) (unmarshalGeneric <$> lastMember "result" ms)
  /\ Some (Resp.Error r') =
       default (Some (Resp.Error r)) (unmarshalGeneric <$> lastMember "error" ms).
Proof.
  revert r. induction ms as [|[key v] rest IH]; intros r.
  { by intros [= <-]. }
  simpl. destruct (responseMember key v r) as [r1|] eqn:Hmember; [|done].
  intros Hrest. apply IH in Hrest as (Hv & Hres & Herr).
  apply responseMember_given in Hmember as (Hv1 & Hres1 & Herr1).
  split; [|split].
  - destruct (lastString "jsonrpc" rest); [done|]. simpl in Hv. by rewrite Hv, Hv1.
  - destruct (lastMember "result" rest); [done|]. simpl in Hres. by rewrite Hres, Hres1.
  - destruct (lastMember "error" rest); [done|]. simpl in Herr. by rewrite Herr, Herr1.
Qed.

(** What a reply decodes to has the version, result and error its members
    give. *)
Lemma responseValue_given v r :
  responseValue v = Some r -> exists ms, membersOf v = Some ms /\ givenBy ms r.
Proof.
  destruct v as [| | | | |ms]; try done.
  - intros [= <-]. by exists [].
  - intros Hdec. exists ms. split; [done|]. by apply responseMembers_given in Hdec.
Qed.

Lemma trace_shape req :
  wellFormed (handleDebugTransactionTrace E req)
  \/ ((exists txId, tracedTx req = Some txId
                   /\ os_ReadFile E (traceFileOf txId) = Some (Document JNull))
      /\ handleDebugTransactionTrace E req =
           {| Resp.Jsonrpc := "2.0"; Resp.ID := Req.ID req;
              Resp.Result := None; Resp.Error := None |}).
Proof.
  destruct (tracedTx req) as [txId|] eqn:Htx.
  - rewrite (trace_of_tx E req txId Htx).
    destruct (os_ReadFile E (traceFileOf txId)) as [[|doc]|] eqn:Hfile;
      try (left; apply jsonError_wellFormed).
    simpl. unfold unmarshalGeneric.
    destruct doc; try (destruct (generic _); simpl;
      [left; apply result_wellFormed|left; apply jsonError_wellFormed]).
    right. split; [by exists txId|done].
  - destruct (trace_without_tx E req Htx) as [msg ->].
    left. apply jsonError_wellFormed.
Qed.

Lemma forward_single_shape req targetURL (w : World E) :
  wellFormed (fst (forwardAndReturn E req targetURL w))
  \/ exists respBody w',
       http_Post E targetURL (marshalRequest req) w = (PostReplied respBody, w')
       /\ passedThrough respBody (fst (forwardAndReturn E req targetURL w)).
Proof.
  unfold forwardAndReturn.
  destruct (http_Post E targetURL (marshalRequest req) w)
    as [[err|respBody] w'] eqn:Hpost; [left; apply jsonError_wellFormed|].
  destruct (unmarshalResponse respBody) as [up|] eqn:Hup;
    [|left; apply jsonError_wellFormed].
  right. exists respBody, w'. split; [done|].
  destruct respBody as [|v]; [done|].
  apply responseValue_given in Hup as (ms & Hms & Hgiven).
  exists v, ms. split; [by left|]. split; [done|]. apply Hgiven.
Qed.

Lemma forward_batch_shape reqs originalArr targetURL (w : World E) l r :
  fst (forwardBatchToJSONRPC E reqs originalArr targetURL w) = Some l ->
  r ∈ l ->
  wellFormed r
  \/ exists respBody w',
       http_Post E targetURL (JArray originalArr) w = (PostReplied respBody, w')
       /\ passedThrough respBody r.
Proof.
  unfold forwardBatchToJSONRPC, createErrorResponsesForBatch.
  destruct (http_Post E targetURL (JArray originalArr) w)
    as [[err|respBody] w'] eqn:Hpost; cbn [fst].
  - intros [= <-] Hin. left.
    apply list_elem_of_fmap in Hin as (q & -> & _). apply jsonError_wellFormed.
  - destruct (unmarshalResponses respBody) as [batchResp|] eqn:Hbatch; cbn [fst].
    + intros -> Hin. right. exists respBody, w'. split; [done|].
      destruct respBody as [|[| | | |elems|]]; try done.
      simpl in Hbatch.
      destruct (mapM responseValue elems) as [l'|] eqn:Hmap; [|done].
      injection Hbatch as ->.
      apply mapM_Some_1 in Hmap.
      apply list_elem_of_lookup in Hin as [k Hk].
      destruct (Forall2_lookup_r _ _ _ _ _ Hmap Hk) as (v & Hv & Hdec).
      apply responseValue_given in Hdec as (ms & Hms & Hgiven).
      exists v, ms. split; [|done].
      right. exists elems. split; [done|]. by apply list_elem_of_lookup_2 in Hv.
    + destruct (unmarshalResponse respBody) as [singleResp|] eqn:Hsingle; cbn [fst].
      * destruct (Resp.ID singleResp); cbn [fst].
        -- intros [= <-] Hin. apply list_elem_of_singleton in Hin as ->. right.
           exists respBody, w'. split; [done|].
           destruct respBody as [|v]; [done|].
           apply responseValue_given in Hsingle as (ms & Hms & Hgiven).
           exists v, ms. split; [by left|done].
        -- intros [= <-] Hin. left.
           apply list_elem_of_fmap in Hin as (q & -> & _).
           apply jsonError_wellFormed.
      * intros [= <-] Hin. left.
        apply list_elem_of_fmap in Hin as (q & -> & _).
        apply jsonError_wellFormed.
Qed.

Lemma served_false m :
  served m = false <->
  (m =? "debug_traceBlockByHash") = false /\ (m =? "eth_debugTransactionTrace") = false.
Proof. unfold served. apply orb_false_iff. Qed.

Lemma single_shape req (w : World E) :
  let r := fst (handleSingleRequest E req w) in
  wellFormed r
  \/ (Req.Jsonrpc req = "2.0" /\ served (Req.Method req) = false
      /\ exists respBody w',
           http_Post E (tronJSONRPCEndpoint E) (marshalRequest req) w
             = (PostReplied respBody, w')
           /\ passedThrough respBody r)
  \/ (nullTraceCall E req
      /\ r = {| Resp.Jsonrpc := "2.0"; Resp.ID := Req.ID req;
                Resp.Result := None; Resp.Error := None |}).
Proof.
  unfold handleSingleRequest.
  destruct (String.eqb_spec (Req.Jsonrpc req) "2.0") as [Hver|_];
    [|left; apply jsonError_wellFormed]. cbn [negb].
  destruct (String.eqb_spec (Req.Method req) "debug_traceBlockByHash") as [|Hm1].
  { left. apply rest_wellFormed. }
  destruct (String.eqb_spec (Req.Method req) "eth_debugTransactionTrace") as [Hm|Hm2].
  { cbn [fst]. destruct (trace_shape req) as [|[Hnull Heq]]; [by left|].
    right. right. by split. }
  cbv zeta. destruct (forward_single_shape req (tronJSONRPCEndpoint E) w) as [|Hfwd];
    [by left|].
  right. left. split; [done|]. split; [|done].
  apply served_false. by split; apply String.eqb_neq.
Qed.

Lemma mixedMethods_false m reqs :
  mixedMethods m reqs = false -> Forall (fun r => Req.Method r = m) reqs.
Proof.
  intros Hmixed. apply Forall_forall. intros r Hin.
  destruct (String.eqb_spec (Req.Method r) m) as [|Hne]; [done|].
  unfold mixedMethods in Hmixed.
  assert (existsb (fun r => negb (Req.Method r =? m)) reqs = true) as Hex.
  { apply existsb_exists. exists r. split; [by apply list_elem_of_In|].
    apply negb_true_iff. by apply String.eqb_neq. }
  congruence.
Qed.

Lemma parseBatchRequests_errors arr reqs errs :
  parseBatchRequests arr = (reqs, Some errs) ->
  Forall (eq batchParseError) errs.
Proof.
  unfold parseBatchRequests. rewrite parseBatchLoop_acc. simpl.
  destruct (0 <? _)%nat; [|done]. intros [= _ <-].
  apply Forall_forall. intros r Hin.
  by apply elem_of_replicate in Hin as [-> _].
Qed.

Lemma batch_shape arr (w : World E) r :
  emitted (fst (handleBatch E arr w)) r ->
  wellFormed r
  \/ (exists respBody,
        forwardedExchange E (Received (Document (JArray arr))) w respBody
        /\ passedThrough respBody r)
  \/ traceOfNull E (Received (Document (JArray arr))) r.
Proof.
  unfold handleBatch.
  destruct (parseBatchRequests arr) as [reqs [errs|]] eqn:Hparse.
  - assert (emitted (Array (Some errs)) r -> wellFormed r) as Hwf.
    { cbn. intros Hin.
      pose proof (parseBatchRequests_errors _ _ _ Hparse) as Herrs.
      rewrite Forall_forall in Herrs. apply Herrs in Hin as <-.
      apply batchParseError_wellFormed. }
    destruct reqs; cbn [fst sendBatchResponse]; auto.
  - destruct reqs as [[|first others]|]; [done| |done].
    destruct (mixedMethods (Req.Method first) (first :: others)) eqn:Hmixed.
    { cbn. intros Hin. left.
      change (r ∈ createErrorResponsesForBatch (first :: others) (-32601)
                    "Mixed methods not supported") in Hin.
      apply list_elem_of_fmap in Hin as (q & -> & _). apply jsonError_wellFormed. }
    apply mixedMethods_false in Hmixed.
    destruct (Req.Method first =? "debug_traceBlockByHash") eqn:Hm1.
    { pose proof (rest_batch_wellFormed (first :: others) w) as Hwf.
      destruct (handleBatchGetTransactionInfo E (first :: others) w) as [resps w'].
      cbn. intros Hin. left. rewrite Forall_forall in Hwf.
      by apply Hwf. }
    destruct (Req.Method first =? "eth_debugTransactionTrace") eqn:Hm2.
    { cbn [fst sendBatchResponse emitted].
      rewrite handleBatchDebugTransactionTrace_map. intros Hin.
      apply list_elem_of_fmap in Hin as (q & -> & Hq).
      destruct (trace_shape q) as [|[Hnull Heq]]; [by left|].
      right. right. exists q. split; [right; by exists arr, (first :: others)|].
      split; [|done]. split; [|done].
      rewrite Forall_forall in Hmixed. rewrite (Hmixed q Hq).
      by apply String.eqb_eq. }
    pose proof (forward_batch_shape (first :: others) arr (tronJSONRPCEndpoint E) w)
      as Hfwd.
    destruct (forwardBatchToJSONRPC E (first :: others) arr (tronJSONRPCEndpoint E) w)
      as [[l|] w']; cbn; [|done].
    intros Hin. destruct (Hfwd l r eq_refl Hin) as [|(respBody & w'' & Hpost & Hpass)];
      [by left|].
    right. left. exists respBody. split; [|done].
    left. exists arr, (first :: others), (Req.Method first), w''.
    repeat split; try done. apply served_false. by split.
Qed.

End Shapes.

(** ** C1: the decode-failure policy of a batch *)

(** C1, as the code has it.  For every batch in which at least one element
    fails to decode into a Call, the dispatcher calls no executor and
    writes only parse-error Responses (code -32700, null id): one per
    element that failed to decode, so at least one and at most as many as
    the batch has elements; an element that did decode contributes
    nothing. *)
Theorem batch_decode_failure_only_errors (E : Env) (arr : list json) (w : World E) :
  Exists (fun elem => unmarshalRequest elem = None) arr ->
  handleJSONRPC E (Received (Document (JArray arr))) w =
    (Array (Some (replicate (length (List.filter undecodable arr)) batchParseError)),
     w)
  /\ errorCode batchParseError = Some (-32700)%Z
  /\ Resp.ID batchParseError = None
  /\ 0 < length (List.filter undecodable arr) <= length arr.
Proof.
  intros Hex.
  destruct (parseBatchRequests_failed arr Hex) as [Hparse Hlen].
  split; [|done].
  destruct arr as [|elem rest]; [inversion Hex|].
  simpl. unfold handleBatch. by rewrite Hparse.
Qed.

Lemma batch_decode_failure_only_errors_witness :
  handleJSONRPC (scripted unreachable noFiles)
    (Received (Document (JArray [JString "x"; call (JNumber (Integer 1)) "2.0" "eth_blockNumber" []; JBool true])))
    0 =
    (Array (Some [batchParseError; batchParseError]), 0).
Proof.
  apply (batch_decode_failure_only_errors (scripted unreachable noFiles)
           [JString "x"; call (JNumber (Integer 1)) "2.0" "eth_blockNumber" []; JBool true] 0).
  apply Exists_cons_hd. reflexivity.
Defined.

(** C1, counterexample to the claim as stated.  In a batch of two elements
    of which only the second fails to decode, the output has one Response,
    not two. *)
Lemma batch_decode_failure_length_counterexample :
  unmarshalRequest (call (JNumber (Integer 1)) "2.0" "eth_blockNumber" []) =
    Some {| Req.Jsonrpc := "2.0"; Req.Method := "eth_blockNumber";
            Req.Params := Some []; Req.ID := Some (JNumber (Integer 1)) |}
  /\ unmarshalRequest (JNumber (Integer 5)) = None
  /\ fst (handleJSONRPC (scripted unreachable noFiles)
            (Received (Document (JArray
               [call (JNumber (Integer 1)) "2.0" "eth_blockNumber" [];
                JNumber (Integer 5)]))) 0) =
       Array (Some [batchParseError])
  /\ length [batchParseError] <> length
       [call (JNumber (Integer 1)) "2.0" "eth_blockNumber" []; JNumber (Integer 5)].
Proof. repeat split; try reflexivity. simpl. lia. Qed.

(** ** C2: length and order of a batch of Responses *)




(** ** C3: the batch homogeneity guard *)

(** C3.  For every decoded batch with at least two distinct method names,
    the dispatcher leaves the outside world as it found it (no executor
    runs) and writes one Response per Call, in the order of the Calls, each
    an error with code -32601 and message "Mixed methods not supported"
    carrying that Call's id. *)
Theorem mixed_batch_rejected (E : Env) (arr : list json)
  (reqs : list JSONRPCRequest) (w : World E) :
  parseBatchRequests arr = (Some reqs, None) ->
  (exists r1 r2, r1 ∈ reqs /\ r2 ∈ reqs /\ Req.Method r1 <> Req.Method r2) ->
  exists resps,
    handleJSONRPC E (Received (Document (JArray arr))) w = (Array (Some resps), w)
    /\ Forall2 (fun q r => reportsError r (Req.ID q) (-32601)
                             "Mixed methods not supported") reqs resps.
Proof.
  intros Hparse Hmixed. rewrite (mixed_batch_rejected_aux E arr reqs w Hparse Hmixed).
  eexists. split; [reflexivity|]. apply createErrorResponsesForBatch_reports.
Qed.

Lemma mixed_batch_rejected_witness :
  exists resps,
    handleJSONRPC (scripted unreachable noFiles)
      (Received (Document (JArray [blockNumberCall 1; chainIdCall 2]))) 0 =
      (Array (Some resps), 0)
    /\ Forall2 (fun q r => reportsError r (Req.ID q) (-32601)
                             "Mixed methods not supported")
         [decodedCall 1 "eth_blockNumber" []; decodedCall 2 "eth_chainId" []] resps.
Proof.
  apply (mixed_batch_rejected (scripted unreachable noFiles)
           [blockNumberCall 1; chainIdCall 2]
           [decodedCall 1 "eth_blockNumber" []; decodedCall 2 "eth_chainId" []]
           0 eq_refl).
  exists (decodedCall 1 "eth_blockNumber" []), (decodedCall 2 "eth_chainId" []).
  split; [apply list_elem_of_here|].
  split; [apply list_elem_of_further, list_elem_of_here|].
  discriminate.
Defined.

(** ** C4: a batch of trace lookups is the element-wise map of the single
    lookup *)

(** C4.  For a batch of trace Calls, whatever the order in which the
    goroutines complete, the returned batch is the single-call trace handler
    applied to each Call in turn.  When the first parameter of Call [k] is
    the string [txId] and the file [/project/trace/txId.json] cannot be
    read, the Response at index [k] is the error -32603 "cannot read trace
    file" with the id of Call [k]; when the file holds a document, the
    Response at index [k] has the id of Call [k] and the decoded document
    as its result, whatever the other files are.  An internal error at
    index [k] comes from the file of Call [k] alone (unreadable, not JSON,
    or holding a number out of range), and the Response at index [k] is the
    same in any environment that agrees on that one file, whatever the
    other files hold and whatever the order of completion.  The dispatcher
    writes exactly this batch for a decoded batch of
    [eth_debugTransactionTrace] Calls. *)
Theorem trace_batch_is_pointwise (E : Env) (reqs : list JSONRPCRequest) :
  handleBatchDebugTransactionTrace E reqs = map (handleDebugTransactionTrace E) reqs
  /\ (forall k r txId rest,
        reqs !! k = Some r ->
        Req.Params r = Some (JString txId :: rest) ->
        os_ReadFile E ("/project/trace/" ++ txId ++ ".json") = None ->
        exists resp,
          handleBatchDebugTransactionTrace E reqs !! k = Some resp
          /\ reportsError resp (Req.ID r) (-32603) "cannot read trace file")
  /\ (forall k r txId rest doc a,
        reqs !! k = Some r ->
        Req.Params r = Some (JString txId :: rest) ->
        os_ReadFile E ("/project/trace/" ++ txId ++ ".json") = Some (Document doc) ->
        unmarshalGeneric doc = Some a ->
        handleBatchDebugTransactionTrace E reqs !! k =
          Some {| Resp.Jsonrpc := "2.0"; Resp.ID := Req.ID r;
                  Resp.Result := a; Resp.Error := None |})
  /\ (forall k r resp,
        reqs !! k = Some r ->
        handleBatchDebugTransactionTrace E reqs !! k = Some resp ->
        errorCode resp = Some (-32603)%Z ->
        exists txId,
          tracedTx r = Some txId /\
          (os_ReadFile E (traceFileOf txId) = None \/
           os_ReadFile E (traceFileOf txId) = Some Malformed \/
           exists doc, os_ReadFile E (traceFileOf txId) = Some (Document doc)
                       /\ outOfRange doc))
  /\ (forall (E' : Env) k r,
        reqs !! k = Some r ->
        (forall txId, tracedTx r = Some txId ->
           os_ReadFile E' (traceFileOf txId) = os_ReadFile E (traceFileOf txId)) ->
        handleBatchDebugTransactionTrace E' reqs !! k =
          handleBatchDebugTransactionTrace E reqs !! k)
  /\ (forall arr (w : World E),
        parseBatchRequests arr = (Some reqs, None) -> reqs <> [] ->
        Forall (fun r => Req.Method r = "eth_debugTransactionTrace") reqs ->
        handleJSONRPC E (Received (Document (JArray arr))) w =
          (Array (Some (map (handleDebugTransactionTrace E) reqs)), w)).
Proof.
  assert (forall E0 k r, reqs !! k = Some r ->
            handleBatchDebugTransactionTrace E0 reqs !! k =
              Some (handleDebugTransactionTrace E0 r)) as Hslot.
  { intros E0 k r Hk. rewrite handleBatchDebugTransactionTrace_map.
    change (map (handleDebugTransactionTrace E0) reqs)
      with (handleDebugTransactionTrace E0 <$> reqs).
    by rewrite list_lookup_fmap, Hk. }
  split; [apply handleBatchDebugTransactionTrace_map|].
  split; [|split; [|split; [|split]]].
  - intros k r txId rest Hk Hparams Hread.
    rewrite (Hslot E k r Hk). eexists. split; [reflexivity|].
    rewrite (trace_of_tx E r txId) by (unfold tracedTx; by rewrite Hparams).
    unfold traceFileOf. rewrite Hread. by repeat split.
  - intros k r txId rest doc a Hk Hparams Hread Hdoc.
    rewrite (Hslot E k r Hk). f_equal.
    rewrite (trace_of_tx E r txId) by (unfold tracedTx; by rewrite Hparams).
    unfold traceFileOf. rewrite Hread. simpl. by rewrite Hdoc.
  - intros k r resp Hk Hresp Hcode.
    rewrite (Hslot E k r Hk) in Hresp. injection Hresp as <-.
    by apply internal_error_own_file.
  - intros E' k r Hk Hsame.
    rewrite (Hslot E k r Hk), (Hslot E' k r Hk). f_equal.
    by apply handleDebugTransactionTrace_own_file.
  - intros arr w Hparse Hne Hall.
    assert (arr <> []) as Harr.
    { intros ->. apply parseBatchRequests_length in Hparse. by destruct reqs. }
    destruct reqs as [|first others]; [done|].
    rewrite handleJSONRPC_batch by done. by apply handleBatch_trace.
Qed.

Lemma trace_batch_is_pointwise_witness :
  (exists resp,
     handleBatchDebugTransactionTrace (scripted unreachable oneTrace)
       [decodedCall 1 "eth_debugTransactionTrace" [JString "abc123"];
        decodedCall 2 "eth_debugTransactionTrace" [JString "missing"];
        decodedCall 3 "eth_debugTransactionTrace" [JString "abc123"]] !! 1 = Some resp
     /\ reportsError resp (Some (JNumber (Integer 2))) (-32603) "cannot read trace file")
  /\ handleBatchDebugTransactionTrace (scripted unreachable oneTrace)
       [decodedCall 1 "eth_debugTransactionTrace" [JString "abc123"];
        decodedCall 2 "eth_debugTransactionTrace" [JString "missing"];
        decodedCall 3 "eth_debugTransactionTrace" [JString "abc123"]] !! 2 =
       Some {| Resp.Jsonrpc := "2.0"; Resp.ID := Some (JNumber (Integer 3));
               Resp.Result := Some traceDocument; Resp.Error := None |}.
Proof.
  assert (unmarshalGeneric traceDocument = Some (Some traceDocument)) as Hdoc
    by (vm_compute; reflexivity).
  pose proof (trace_batch_is_pointwise (scripted unreachable oneTrace)
                [decodedCall 1 "eth_debugTransactionTrace" [JString "abc123"];
                 decodedCall 2 "eth_debugTransactionTrace" [JString "missing"];
                 decodedCall 3 "eth_debugTransactionTrace" [JString "abc123"]])
    as (_ & Hmissing & Hpresent & _).
  split.
  - exact (Hmissing 1 _ "missing" [] eq_refl eq_refl eq_refl).
  - exact (Hpresent 2 _ "abc123" [] traceDocument (Some traceDocument)
             eq_refl eq_refl eq_refl Hdoc).
Defined.

(** ** C5: the forward proxy, single mode *)

(** C5, as the code has it.  For every single Call forwarded to the upstream
    whose reply decodes as a Response, the Response returned carries the
    Call's id, whatever id the upstream sent, the last protocol version
    string of the reply, and what the last [result] member and the last
    [error] member of the reply decode to into an [interface{}]: a number
    as the [float64] nearest to it, an object as a map, [null] as nil.  A
    result or error that this decode leaves as it is, is returned as it
    is.  The encoded Response has no member besides [jsonrpc], [id],
    [result] and [error].  This is what the router returns for a Call of
    version "2.0" whose method is not handled locally. *)
Theorem forward_overwrites_id (E : Env) (req : JSONRPCRequest) (targetURL : string)
  (w w' : World E) (respBody : Body) (forwardResp : JSONRPCResponse) :
  http_Post E targetURL (marshalRequest req) w = (PostReplied respBody, w') ->
  unmarshalResponse respBody = Some forwardResp ->
  exists answer,
    forwardAndReturn E req targetURL w = (answer, w')
    /\ Resp.ID answer = Req.ID req
    /\ (exists v ms,
          respBody = Document v /\ membersOf v = Some ms /\ givenBy ms answer
          /\ (forall x, lastMember "result" ms = Some x -> generic x = Some x ->
                x <> JNull -> Resp.Result answer = Some x)
          /\ (forall x, lastMember "error" ms = Some x -> generic x = Some x ->
                x <> JNull -> Resp.Error answer = Some x))
    /\ Forall (fun name => name ∈ ["jsonrpc"; "id"; "result"; "error"])
         (memberNames (marshalResponse answer))
    /\ (Req.Jsonrpc req = "2.0" ->
        Req.Method req <> "debug_traceBlockByHash" ->
        Req.Method req <> "eth_debugTransactionTrace" ->
        targetURL = tronJSONRPCEndpoint E ->
        handleSingleRequest E req w = (answer, w')).
Proof.
  intros Hpost Hdec.
  set (answer := {| Resp.Jsonrpc := Resp.Jsonrpc forwardResp; Resp.ID := Req.ID req;
                    Resp.Result := Resp.Result forwardResp;
                    Resp.Error := Resp.Error forwardResp |}).
  assert (forwardAndReturn E req targetURL w = (answer, w')) as Hfwd.
  { unfold forwardAndReturn. by rewrite Hpost, Hdec. }
  exists answer. split; [done|]. split; [done|]. split; [|split].
  - destruct respBody as [|v]; [done|].
    apply responseValue_given in Hdec as (ms & Hms & Hgiven).
    exists v, ms. split; [done|]. split; [done|]. split; [apply Hgiven|].
    destruct Hgiven as (_ & Hres & Herr).
    split; intros x Hlast Hgen Hx.
    + rewrite Hlast in Hres. simpl in Hres. unfold unmarshalGeneric in Hres.
      rewrite Hgen in Hres. destruct x; try done; by injection Hres.
    + rewrite Hlast in Herr. simpl in Herr. unfold unmarshalGeneric in Herr.
      rewrite Hgen in Herr. destruct x; try done; by injection Herr.
  - unfold marshalResponse, memberNames.
    destruct (Resp.Result answer), (Resp.Error answer); simpl;
      repeat first [apply Forall_nil_2 | apply Forall_cons_2
                   | apply list_elem_of_here | apply list_elem_of_further].
  - intros Hver Hm1 Hm2 ->. unfold handleSingleRequest.
    apply String.eqb_neq in Hm1, Hm2. rewrite Hver, Hm1, Hm2. done.
Qed.

Lemma forward_overwrites_id_witness :
  exists answer,
    forwardAndReturn (scripted wrongId noFiles) (decodedCall 7 "eth_blockNumber" [])
      "http://tron:8545/jsonrpc" 0 = (answer, 1)
    /\ Resp.ID answer = Some (JNumber (Integer 7))
    /\ Resp.Result answer = Some (JString "0x10").
Proof.
  assert (unmarshalResponse (Document (JObject
            [("jsonrpc", JString "2.0"); ("id", JNumber (Integer 99));
             ("result", JString "0x10")])) =
          Some {| Resp.Jsonrpc := "2.0"; Resp.ID := Some (JNumber (Integer 99));
                  Resp.Result := Some (JString "0x10"); Resp.Error := None |})
    as Hdec by (vm_compute; reflexivity).
  destruct (forward_overwrites_id (scripted wrongId noFiles)
              (decodedCall 7 "eth_blockNumber" []) "http://tron:8545/jsonrpc"
              0 1 _ _ eq_refl Hdec)
    as (answer & Hfwd & Hid & (v & ms & Hbody & Hms & Hgiven & Hresult & _) & _).
  exists answer. split; [exact Hfwd|]. split; [exact Hid|].
  injection Hbody as <-. injection Hms as <-.
  apply Hresult; [reflexivity|reflexivity|discriminate].
Defined.

(** C5, counterexample to the claim as stated.  The upstream replies
    [{"jsonrpc":"2.0","id":99,"result":12345678901234567890,"latency":3}]:
    the Response returned has the result 12345678901234567000 and no member
    [latency].  The upstream replies [{"jsonrpc":"2.0","id":7,"result":null}]:
    the Response returned has no member [result]. *)
Lemma forward_reply_reencoded_counterexample :
  unmarshalResponse (Document (JObject bigResultReply)) =
    Some {| Resp.Jsonrpc := "2.0"; Resp.ID := Some (JNumber (Integer 99));
            Resp.Result := Some (JNumber (Integer 12345678901234567000));
            Resp.Error := None |}
  /\ forwardAndReturn (scripted bigResult noFiles) (decodedCall 7 "eth_getBalance" [])
       "http://tron:8545/jsonrpc" 0 =
       ({| Resp.Jsonrpc := "2.0"; Resp.ID := Some (JNumber (Integer 7));
           Resp.Result := Some (JNumber (Integer 12345678901234567000));
           Resp.Error := None |}, 1)
  /\ lastMember "result" bigResultReply = Some (JNumber (Integer 12345678901234567890))
  /\ "latency" ∈ map fst bigResultReply
  /\ marshalResponse (fst (forwardAndReturn (scripted bigResult noFiles)
                             (decodedCall 7 "eth_getBalance" [])
                             "http://tron:8545/jsonrpc" 0)) =
       JObject [("jsonrpc", JString "2.0"); ("id", JNumber (Integer 7));
                ("result", JNumber (Integer 12345678901234567000))]
  /\ "result" ∈ map fst nullResultReply
  /\ marshalResponse (fst (forwardAndReturn (scripted nullResult noFiles)
                             (decodedCall 7 "eth_getBalance" [])
                             "http://tron:8545/jsonrpc" 0)) =
       JObject [("jsonrpc", JString "2.0"); ("id", JNumber (Integer 7))].
Proof.
  split; [by vm_compute|]. split; [by vm_compute|]. split; [by vm_compute|].
  split; [simpl; repeat first [apply list_elem_of_here | apply list_elem_of_further]|].
  split; [by vm_compute|].
  split; [simpl; repeat first [apply list_elem_of_here | apply list_elem_of_further]|].
  by vm_compute.
Qed.

(** ** C6: the forward proxy, batch mode *)

(** C6, as the code has it.  For every forwarded batch whose reply does not
    decode as an array of Responses: if the reply decodes as a single
    Response with a non-null id, that Response is returned as the only
    element of a one-item batch; if it decodes as a single Response without
    an id, or not at all, every Call of the batch receives the error -32603
    "Invalid response from forwarded service" carrying its own id, one
    Response per Call in the order of the Calls. *)
Theorem forwarded_batch_fallbacks (E : Env) (reqs : list JSONRPCRequest)
  (originalArr : list json) (targetURL : string) (w w' : World E)
  (respBody : Body) :
  http_Post E targetURL (JArray originalArr) w = (PostReplied respBody, w') ->
  unmarshalResponses respBody = None ->
  (forall singleResp,
     unmarshalResponse respBody = Some singleResp ->
     is_Some (Resp.ID singleResp) ->
     forwardBatchToJSONRPC E reqs originalArr targetURL w = (Some [singleResp], w'))
  /\ ((unmarshalResponse respBody = None \/
       exists singleResp,
         unmarshalResponse respBody = Some singleResp /\ Resp.ID singleResp = None) ->
      exists resps,
        forwardBatchToJSONRPC E reqs originalArr targetURL w = (Some resps, w')
        /\ Forall2 (fun q r => reportsError r (Req.ID q) (-32603)
                                 "Invalid response from forwarded service")
             reqs resps).
Proof.
  intros Hpost Hbatch. unfold forwardBatchToJSONRPC. rewrite Hpost, Hbatch.
  split.
  - intros singleResp -> [id Hid]. by rewrite Hid.
  - intros [->|(singleResp & -> & ->)];
      (eexists; split; [reflexivity|apply createErrorResponsesForBatch_reports]).
Qed.

Lemma forwarded_batch_fallbacks_witness :
  forwardBatchToJSONRPC (scripted wrongId noFiles)
    [decodedCall 1 "eth_blockNumber" []; decodedCall 2 "eth_blockNumber" []]
    [blockNumberCall 1; blockNumberCall 2] "http://tron:8545/jsonrpc" 0 =
    (Some [{| Resp.Jsonrpc := "2.0"; Resp.ID := Some (JNumber (Integer 99));
              Resp.Result := Some (JString "0x10"); Resp.Error := None |}], 1)
  /\ exists resps,
       forwardBatchToJSONRPC (scripted noId noFiles)
         [decodedCall 1 "eth_blockNumber" []; decodedCall 2 "eth_blockNumber" []]
         [blockNumberCall 1; blockNumberCall 2] "http://tron:8545/jsonrpc" 0 =
         (Some resps, 1)
       /\ Forall2 (fun q r => reportsError r (Req.ID q) (-32603)
                                "Invalid response from forwarded service")
            [decodedCall 1 "eth_blockNumber" []; decodedCall 2 "eth_blockNumber" []]
            resps.
Proof.
  assert (unmarshalResponses (Document (JObject
            [("jsonrpc", JString "2.0"); ("id", JNumber (Integer 99));
             ("result", JString "0x10")])) = None) as Hbatch by reflexivity.
  assert (unmarshalResponse (Document (JObject
            [("jsonrpc", JString "2.0"); ("id", JNumber (Integer 99));
             ("result", JString "0x10")])) =
          Some {| Resp.Jsonrpc := "2.0"; Resp.ID := Some (JNumber (Integer 99));
                  Resp.Result := Some (JString "0x10"); Resp.Error := None |})
    as Hsingle by (vm_compute; reflexivity).
  assert (unmarshalResponse (Document (JObject
            [("jsonrpc", JString "2.0"); ("result", JString "0x10")])) =
          Some {| Resp.Jsonrpc := "2.0"; Resp.ID := None;
                  Resp.Result := Some (JString "0x10"); Resp.Error := None |})
    as Hnoid by (vm_compute; reflexivity).
  split.
  - refine (proj1 (forwarded_batch_fallbacks (scripted wrongId noFiles)
                     [decodedCall 1 "eth_blockNumber" [];
                      decodedCall 2 "eth_blockNumber" []]
                     [blockNumberCall 1; blockNumberCall 2] "http://tron:8545/jsonrpc"
                     0 1 _ eq_refl Hbatch) _ Hsingle _).
    by eexists.
  - refine (proj2 (forwarded_batch_fallbacks (scripted noId noFiles)
                     [decodedCall 1 "eth_blockNumber" [];
                      decodedCall 2 "eth_blockNumber" []]
                     [blockNumberCall 1; blockNumberCall 2] "http://tron:8545/jsonrpc"
                     0 1 _ eq_refl eq_refl) _).
    right. eexists. split; [exact Hnoid|reflexivity].
Defined.

(** C6, counterexample to the claim as stated.  The reply below does not
    decode as an array of Responses and does decode as a single Response,
    yet it is not returned as a one-item batch: it has no id, and both
    Calls receive an internal error. *)
Lemma forwarded_single_without_id_counterexample :
  unmarshalResponses (Document (JObject
      [("jsonrpc", JString "2.0"); ("result", JString "0x10")])) = None
  /\ unmarshalResponse (Document (JObject
      [("jsonrpc", JString "2.0"); ("result", JString "0x10")])) =
       Some {| Resp.Jsonrpc := "2.0"; Resp.ID := None;
               Resp.Result := Some (JString "0x10"); Resp.Error := None |}
  /\ fst (forwardBatchToJSONRPC (scripted noId noFiles)
            [decodedCall 1 "eth_blockNumber" []; decodedCall 2 "eth_blockNumber" []]
            [blockNumberCall 1; blockNumberCall 2] "http://tron:8545/jsonrpc" 0) =
       Some [jsonError (Some (JNumber (Integer 1))) (-32603)
               "Invalid response from forwarded service";
             jsonError (Some (JNumber (Integer 2))) (-32603)
               "Invalid response from forwarded service"]
  /\ fst (forwardBatchToJSONRPC (scripted noId noFiles)
            [decodedCall 1 "eth_blockNumber" []; decodedCall 2 "eth_blockNumber" []]
            [blockNumberCall 1; blockNumberCall 2] "http://tron:8545/jsonrpc" 0) <>
       Some [{| Resp.Jsonrpc := "2.0"; Resp.ID := None;
                Resp.Result := Some (JString "0x10"); Resp.Error := None |}].
Proof. repeat split; try reflexivity. discriminate. Qed.

(** ** C7: the REST translator *)

(** C7, as the code has it.  For a Call whose first parameter is not JSON
    null, the REST translator returns an invalid-params error (-32602)
    exactly when the params are empty or the first parameter is not an
    integer in the 64-bit range.  On a successful REST exchange the result
    is the encoding of the reply decoded into records of the four fields
    [internal_transactions], [id], [blockNumber] and [transactionHash]. *)
Theorem rest_translator_contract (E : Env) (req : JSONRPCRequest) (w : World E) :
  firstParam req <> Some JNull ->
  (errorCode (fst (handleGetTransactionInfoByBlockNum E req w)) = Some (-32602)%Z
     <-> (len (Req.Params req) = 0 \/
          exists p, firstParam req = Some p /\ ~ isInt64 p))
  /\ (forall z respBody w' respJson,
        firstParam req = Some (JNumber (Integer z)) ->
        (minInt64 <= z <= maxInt64)%Z ->
        http_Post E (tronRestEndpoint E ++ "/wallet/gettransactioninfobyblocknum")
          (JObject [("num", JNumber (Integer z))]) w = (PostReplied respBody, w') ->
        unmarshalTxInfos respBody = Some respJson ->
        handleGetTransactionInfoByBlockNum E req w =
          ({| Resp.Jsonrpc := "2.0"; Resp.ID := Req.ID req;
              Resp.Result := Some (marshalTxInfos respJson);
              Resp.Error := None |}, w')).
Proof.
  intros Hnull. split.
  - rewrite <- firstParam_None. unfold handleGetTransactionInfoByBlockNum.
    destruct (firstParam req) as [p|] eqn:Hp.
    + assert (p <> JNull) as Hp' by congruence.
      pose proof (unmarshalInt64_isInt64 p Hp') as Hint.
      destruct (unmarshalInt64 p 0) as [blockId|].
      * assert (isInt64 p) as Hyes by (by exists blockId).
        split.
        -- destruct (http_Post E _ _ w) as [[err|respBody] w']; [done|].
           by destruct (unmarshalTxInfos respBody).
        -- intros [[=]|(p' & [= <-] & Hno)]. done.
      * split; [|done]. intros _. right. by exists p.
    + split; [by left|done].
  - intros z respBody w' respJson Hp Hrange Hpost Hdec.
    unfold handleGetTransactionInfoByBlockNum. rewrite Hp. simpl.
    destruct (Z.leb_spec minInt64 z); [|lia].
    destruct (Z.leb_spec z maxInt64); [|lia]. simpl.
    by rewrite Hpost, Hdec.
Qed.

Lemma rest_translator_contract_witness :
  handleGetTransactionInfoByBlockNum (scripted restNode noFiles)
    (decodedCall 1 "debug_traceBlockByHash" [JNumber (Integer 100)]) 0 =
    ({| Resp.Jsonrpc := "2.0"; Resp.ID := Some (JNumber (Integer 1));
        Resp.Result :=
          Some (JArray [JObject [("internal_transactions", JNull);
                                 ("id", JString "ab");
                                 ("blockNumber", JNumber (Integer 100));
                                 ("transactionHash", JString "")]]);
        Resp.Error := None |}, 1).
Proof.
  assert (firstParam (decodedCall 1 "debug_traceBlockByHash" [JNumber (Integer 100)])
          <> Some JNull) as Hnull by discriminate.
  refine (proj2 (rest_translator_contract (scripted restNode noFiles)
                   (decodedCall 1 "debug_traceBlockByHash" [JNumber (Integer 100)])
                   0 Hnull) 100%Z (Document blockInfoDocument) 1 _ eq_refl _ eq_refl eq_refl).
  unfold minInt64, maxInt64. lia.
Defined.

(** C7, counterexample to the claim as stated.  A first parameter that is
    JSON null is not an integer, yet the Call is not refused: the block
    number stays 0 and the REST exchange takes place.  And the result of a
    successful exchange is not the array the node sent: the fields [fee]
    and [contractResult] are gone, [internal_transactions] and
    [transactionHash] have appeared. *)
Lemma rest_translator_counterexample :
  firstParam (decodedCall 1 "debug_traceBlockByHash" [JNull]) = Some JNull
  /\ errorCode (fst (handleGetTransactionInfoByBlockNum (scripted restNode noFiles)
                       (decodedCall 1 "debug_traceBlockByHash" [JNull]) 0)) = None
  /\ snd (handleGetTransactionInfoByBlockNum (scripted restNode noFiles)
            (decodedCall 1 "debug_traceBlockByHash" [JNull]) 0) = 1
  /\ Resp.Result
       (fst (handleGetTransactionInfoByBlockNum (scripted restNode noFiles)
               (decodedCall 1 "debug_traceBlockByHash" [JNumber (Integer 100)]) 0)) =
       Some (JArray [JObject [("internal_transactions", JNull);
                              ("id", JString "ab");
                              ("blockNumber", JNumber (Integer 100));
                              ("transactionHash", JString "")]])
  /\ Resp.Result
       (fst (handleGetTransactionInfoByBlockNum (scripted restNode noFiles)
               (decodedCall 1 "debug_traceBlockByHash" [JNumber (Integer 100)]) 0)) <>
       Some blockInfoDocument.
Proof. repeat split; try reflexivity. discriminate. Qed.

(** ** C8: the protocol version check *)

(** C8, the code at the failing input.  The same Call of version "1.0" is
    refused with -32600 when it arrives alone, and executed when it arrives
    as the element of a batch: the batch path never looks at the version. *)
Theorem batch_ignores_protocol_version :
  handleJSONRPC (scripted unreachable oneTrace)
    (Received (Document
       (call (JNumber (Integer 1)) "1.0" "eth_debugTransactionTrace"
          [JString "abc123"]))) 0 =
    (Object (jsonError (Some (JNumber (Integer 1))) (-32600) "Invalid Request"), 0)
  /\ handleJSONRPC (scripted unreachable oneTrace)
       (Received (Document (JArray
          [call (JNumber (Integer 1)) "1.0" "eth_debugTransactionTrace"
             [JString "abc123"]]))) 0 =
       (Array (Some [{| Resp.Jsonrpc := "2.0"; Resp.ID := Some (JNumber (Integer 1));
                        Resp.Result := Some traceDocument; Resp.Error := None |}]),
        0).
Proof. split; reflexivity. Qed.

(** ** C9: the shape of the Responses that leave the dispatcher *)

(** C9, as the code has it.  Every Response that leaves the dispatcher has
    protocol version "2.0" and exactly one of result and error; or the
    request reached the forward proxy, which posted it to the JSON-RPC
    endpoint of the node, and the Response has the version, the result and
    the error that the reply to that post gives, whatever they are; or the
    request is or holds a trace Call for a transaction whose file holds the
    document [null], and the Response has the id of that Call, no result
    and no error. *)
Theorem emitted_responses_shape (E : Env) (r : Incoming) (w : World E)
  (resp : JSONRPCResponse) :
  emitted (fst (handleJSONRPC E r w)) resp ->
  wellFormed resp
  \/ (exists respBody, forwardedExchange E r w respBody /\ passedThrough respBody resp)
  \/ traceOfNull E r resp.
Proof.
  destruct r as [|[|raw]].
  - cbn. intros ->. left. apply (jsonError_wellFormed None).
  - cbn. intros ->. left. apply (jsonError_wellFormed None).
  - destruct raw as [| | | |arr|v];
      try (cbn; intros ->; left; apply (jsonError_wellFormed None)).
    + destruct arr as [|elem rest]; [done|]. apply batch_shape.
    + cbn [handleJSONRPC].
      destruct (parseSingleRequest v) as [req|] eqn:Hparse.
      * pose proof (single_shape E req w) as Hshape.
        destruct (handleSingleRequest E req w) as [answer w']. cbn in *.
        unfold sendJSONRPCResponse. destruct (Resp.ID answer); [|done].
        cbn. intros ->.
        destruct Hshape as [|[(Hver & Hserved & respBody & w'' & Hpost & Hpass)
                             |[Hnull ->]]].
        -- by left.
        -- right. left. exists respBody. split; [|done].
           right. by exists v, req, w''.
        -- right. right. exists req. split; [left; by exists v|done].
      * cbn. intros ->. left. apply (jsonError_wellFormed None).
Qed.

Lemma emitted_responses_shape_witness :
  let resp := {| Resp.Jsonrpc := "1.0"; Resp.ID := Some (JNumber (Integer 7));
                 Resp.Result := Some (JString "0x10");
                 Resp.Error := Some (errorObject (-32000) "execution reverted") |} in
  wellFormed resp
  \/ (exists respBody,
        forwardedExchange (scripted resultAndError noFiles)
          (Received (Document (blockNumberCall 7))) 0 respBody
        /\ passedThrough respBody resp)
  \/ traceOfNull (scripted resultAndError noFiles)
       (Received (Document (blockNumberCall 7))) resp.
Proof.
  apply (emitted_responses_shape (scripted resultAndError noFiles)
           (Received (Document (blockNumberCall 7))) 0).
  vm_compute. reflexivity.
Defined.

(** C9, counterexample to the claim as stated.  A forwarded Call whose
    upstream answers with the empty object is answered with a Response of
    empty version that has neither result nor error; one whose upstream
    answers with both members under version "1.0" is answered with both;
    a trace read from a file that holds [null] has neither. *)
Lemma emitted_response_shape_counterexample :
  fst (handleJSONRPC (scripted emptyObject noFiles)
         (Received (Document (blockNumberCall 7))) 0) =
    Object {| Resp.Jsonrpc := ""; Resp.ID := Some (JNumber (Integer 7));
              Resp.Result := None; Resp.Error := None |}
  /\ fst (handleJSONRPC (scripted resultAndError noFiles)
            (Received (Document (blockNumberCall 7))) 0) =
       Object {| Resp.Jsonrpc := "1.0"; Resp.ID := Some (JNumber (Integer 7));
                 Resp.Result := Some (JString "0x10");
                 Resp.Error := Some (errorObject (-32000) "execution reverted") |}
  /\ fst (handleJSONRPC (scripted unreachable nullTraces)
            (Received (Document
               (call (JNumber (Integer 1)) "2.0" "eth_debugTransactionTrace"
                  [JString "abc123"]))) 0) =
       Object {| Resp.Jsonrpc := "2.0"; Resp.ID := Some (JNumber (Integer 1));
                 Resp.Result := None; Resp.Error := None |}
  /\ ~ wellFormed {| Resp.Jsonrpc := ""; Resp.ID := Some (JNumber (Integer 7));
                      Resp.Result := None; Resp.Error := None |}
  /\ ~ wellFormed {| Resp.Jsonrpc := "1.0"; Resp.ID := Some (JNumber (Integer 7));
                      Resp.Result := Some (JString "0x10");
                      Resp.Error :=
                        Some (errorObject (-32000) "execution reverted") |}
  /\ ~ wellFormed {| Resp.Jsonrpc := "2.0"; Resp.ID := Some (JNumber (Integer 1));
                      Resp.Result := None; Resp.Error := None |}.
Proof.
  split; [reflexivity|]. split; [reflexivity|]. split; [reflexivity|].
  split; [|split].
  - intros [Hver _]. discriminate.
  - intros [Hver _]. discriminate.
  - intros [_ [_ Hnone]]. destruct (Hnone eq_refl) as [? ?]. discriminate.
Qed.

(** ** C10: a null id is a notification *)

(** C10.  For every single Call that decodes and whose id member is an
    explicit JSON null, the decoded id is nil and the dispatcher writes no
    body at all, whatever Response the handling produced; the same holds
    when the id member is absent. *)
Theorem null_id_emits_nothing (E : Env) (v : list (string * json))
  (req : JSONRPCRequest) (w : World E) :
  parseSingleRequest v = Some req ->
  idMember v = Some JNull \/ idMember v = None ->
  Req.ID req = None
  /\ fst (handleJSONRPC E (Received (Document (JObject v))) w) = Nothing.
Proof.
  intros Hparse Hid.
  assert (Req.ID req = None) as Hnil.
  { unfold parseSingleRequest, unmarshalRequest in Hparse.
    rewrite (requestMembers_ID _ _ _ Hparse). by destruct Hid as [->| ->]. }
  split; [done|]. simpl. rewrite Hparse.
  pose proof (handleSingleRequest_ID E req w) as Hresp.
  destruct (handleSingleRequest E req w) as [resp w']. simpl in *.
  unfold sendJSONRPCResponse. by rewrite Hresp, Hnil.
Qed.

Lemma null_id_emits_nothing_witness :
  fst (handleJSONRPC (scripted wrongId noFiles)
         (Received (Document (call JNull "1.0" "eth_blockNumber" []))) 0) = Nothing.
Proof.
  refine (proj2 (null_id_emits_nothing (scripted wrongId noFiles)
                   [("id", JNull); ("jsonrpc", JString "1.0");
                    ("method", JString "eth_blockNumber"); ("params", JArray [])]
                   {| Req.Jsonrpc := "1.0"; Req.Method := "eth_blockNumber";
                      Req.Params := Some []; Req.ID := None |}
                   0 eq_refl _)).
  left. reflexivity.
Defined.

(** ** The scenarios of the specification *)

(** A single trace Call with a readable file is answered with the contents
    of the file. *)
Example single_trace_scenario :
  handleJSONRPC (scripted unreachable oneTrace)
    (Received (Document
       (call (JNumber (Integer 1)) "2.0" "eth_debugTransactionTrace"
          [JString "abc123"]))) 0 =
    (Object {| Resp.Jsonrpc := "2.0"; Resp.ID := Some (JNumber (Integer 1));
               Resp.Result := Some traceDocument; Resp.Error := None |}, 0).
Proof. reflexivity. Qed.

(** A batch of three trace Calls of which the second names a missing file:
    an internal error at index 1 only. *)
Example batch_trace_scenario :
  handleJSONRPC (scripted unreachable oneTrace)
    (Received (Document (JArray
       [call (JNumber (Integer 1)) "2.0" "eth_debugTransactionTrace" [JString "abc123"];
        call (JNumber (Integer 2)) "2.0" "eth_debugTransactionTrace" [JString "missing"];
        call (JNumber (Integer 3)) "2.0" "eth_debugTransactionTrace" [JString "abc123"]])))
    0 =
    (Array (Some
       [{| Resp.Jsonrpc := "2.0"; Resp.ID := Some (JNumber (Integer 1));
           Resp.Result := Some traceDocument; Resp.Error := None |};
        jsonError (Some (JNumber (Integer 2))) (-32603) "cannot read trace file";
        {| Resp.Jsonrpc := "2.0"; Resp.ID := Some (JNumber (Integer 3));
           Resp.Result := Some traceDocument; Resp.Error := None |}]), 0).
Proof. reflexivity. Qed.

(** A trace file that holds
    [{"n":12345678901234567890,"x":1.0,"e":1e3}] is answered with
    [{"e":1000,"n":12345678901234567000,"x":1}]; one that holds [1e400] with
    an internal error. *)
Example trace_numbers_scenario :
  handleJSONRPC (scripted unreachable numbersTrace)
    (Received (Document
       (call (JNumber (Integer 1)) "2.0" "eth_debugTransactionTrace"
          [JString "abc123"]))) 0 =
    (Object {| Resp.Jsonrpc := "2.0"; Resp.ID := Some (JNumber (Integer 1));
               Resp.Result :=
                 Some (JObject [("e", JNumber (Integer 1000));
                                ("n", JNumber (Integer 12345678901234567000));
                                ("x", JNumber (Integer 1))]);
               Resp.Error := None |}, 0)
  /\ handleJSONRPC (scripted unreachable hugeTrace)
       (Received (Document
          (call (JNumber (Integer 1)) "2.0" "eth_debugTransactionTrace"
             [JString "abc123"]))) 0 =
       (Object {| Resp.Jsonrpc := "2.0"; Resp.ID := Some (JNumber (Integer 1));
                  Resp.Result := None;
                  Resp.Error :=
                    Some (JObject [("code", JNumber (Integer (-32603)));
                                   ("message", JString "Invalid JSON in trace file")]) |},
        0).
Proof. split; vm_compute; reflexivity. Qed.

(** The literals [json.Marshal] writes for the [float64] nearest to a
    literal. *)
Example float64_literals :
  float64Literal (Integer 9007199254740993) = Some (Integer 9007199254740992)
  /\ float64Literal (Integer 18446744073709551615) = Some (Integer 18446744073709552000)
  /\ float64Literal (Fractional "1.50") = Some (Fractional "1.5")
  /\ float64Literal (Fractional "0.1") = Some (Fractional "0.1")
  /\ float64Literal (Fractional "1e21") = Some (Fractional "1e+21")
  /\ float64Literal (Fractional "1E-7") = Some (Fractional "1e-7")
  /\ float64Literal (Fractional "0.000001") = Some (Fractional "0.000001")
  /\ float64Literal (Fractional "-2.5e3") = Some (Integer (-2500))
  /\ float64Literal (Fractional "5e-324") = Some (Fractional "5e-324")
  /\ float64Literal (Fractional "1e-400") = Some (Integer 0)
  /\ float64Literal (Fractional "1.7976931348623157e308")
       = Some (Fractional "1.7976931348623157e+308")
  /\ float64Literal (Fractional "1.8e308") = None.
Proof. repeat (split; [vm_compute; reflexivity|]). vm_compute. reflexivity. Qed.

(** An object decoded into an [interface{}] keeps the last of the members
    of one name and is written with its keys sorted. *)
Example generic_object :
  generic (JObject [("b", JNumber (Integer 1)); ("a", JNull);
                    ("b", JArray [JNumber (Fractional "2.0")])]) =
    Some (JObject [("a", JNull); ("b", JArray [JNumber (Integer 2)])]).
Proof. vm_compute. reflexivity. Qed.

(** An empty batch is answered with an empty array and reaches no
    executor. *)
Example empty_batch_scenario (E : Env) (w : World E) :
  handleJSONRPC E (Received (Document (JArray []))) w = (Literal "[]", w).
Proof. reflexivity. Qed.

(** A member name selects a field whatever its case. *)
Example member_names_fold :
  unmarshalRequest (JObject [("ID", JNumber (Integer 4)); ("JsonRPC", JString "2.0");
                             ("METHOD", JString "eth_chainId")]) =
    Some {| Req.Jsonrpc := "2.0"; Req.Method := "eth_chainId"; Req.Params := None;
            Req.ID := Some (JNumber (Integer 4)) |}.
Proof. reflexivity. Qed.

(** * Further properties of the dispatcher *)

(** ** The call decoder *)

Lemma selects_exclusive key a b :
  selects key a = true -> selects key b = true -> foldName a = foldName b.
Proof.
  unfold selects. intros Ha Hb.
  apply String.eqb_eq in Ha, Hb. congruence.
Qed.

(** What makes a single member fail does not depend on what was decoded
    before it. *)
Lemma requestMember_None key v req :
  requestMember key v req = None <-> badMember (key, v) = true.
Proof.
  unfold requestMember, badMember. cbn [fst snd].
  destruct (selects key "jsonrpc") eqn:Hj.
  { assert (selects key "params" = false) as ->.
    { apply not_true_is_false. intros Hp.
      by pose proof (selects_exclusive _ _ _ Hj Hp). }
    destruct v; simpl; split; done. }
  destruct (selects key "method") eqn:Hm.
  { assert (selects key "params" = false) as ->.
    { apply not_true_is_false. intros Hp.
      by pose proof (selects_exclusive _ _ _ Hm Hp). }
    destruct v; simpl; split; done. }
  destruct (selects key "params").
  { destruct v; simpl; split; done. }
  destruct (selects key "id"); simpl; split; done.
Qed.

Lemma requestMembers_None ms req :
  requestMembers ms req = None <-> existsb badMember ms = true.
Proof.
  revert req. induction ms as [|[key v] rest IH]; intros req; simpl; [done|].
  pose proof (requestMember_None key v req) as Hmember.
  destruct (requestMember key v req) as [req1|].
  - destruct (badMember (key, v)); [by destruct Hmember as [_ H]; discriminate H|].
    apply IH.
  - by rewrite (proj1 Hmember eq_refl).
Qed.

Lemma requestMembers_app ms1 ms2 req :
  requestMembers (ms1 ++ ms2) req =
    match requestMembers ms1 req with
    | Some req1 => requestMembers ms2 req1
    | None => None
    end.
Proof.
  revert req. induction ms1 as [|[key v] rest IH]; intros req; simpl; [done|].
  by destruct (requestMember key v req).
Qed.

Lemma unmarshalAny_decodable v : decodable (unmarshalAny v).
Proof. unfold decodable. by destruct v. Qed.

Lemma unmarshalRequest_ID_decodable v req :
  unmarshalRequest v = Some req -> decodable (Req.ID req).
Proof.
  destruct v; simpl; try done.
  - by intros [= <-].
  - intros Hms. rewrite (requestMembers_ID _ _ _ Hms).
    destruct (idMember members); [apply unmarshalAny_decodable|done].
Qed.

(** X1.  The single-call decoder refuses an object exactly when one of its
    members names [jsonrpc] or [method] with a value that is neither a
    string nor null, or names [params] with a value that is neither an array
    nor null; the dispatcher then writes a parse error (-32700) with a null
    id, although its id is nil, and runs no executor.  No value of [id] and
    no unknown member ever makes the decoder fail. *)
Theorem single_decode_failure (E : Env) (v : list (string * json)) (w : World E) :
  (parseSingleRequest v = None <-> existsb badMember v = true)
  /\ (existsb badMember v = true ->
      handleJSONRPC E (Received (Document (JObject v))) w =
        (Object (jsonError None (-32700) "Parse error: invalid request object"), w)).
Proof.
  assert (parseSingleRequest v = None <-> existsb badMember v = true) as Hiff
    by apply requestMembers_None.
  split; [done|]. intros Hbad. simpl. by rewrite (proj2 Hiff Hbad).
Qed.

(** X2.  A member that names none of the four fields is ignored by the call
    decoder, wherever it stands in the object. *)
Theorem unknown_member_ignored (pre post : list (string * json)) (key : string)
  (x : json) :
  selects key "jsonrpc" = false -> selects key "method" = false ->
  selects key "params" = false -> selects key "id" = false ->
  unmarshalRequest (JObject (pre ++ (key, x) :: post)) =
    unmarshalRequest (JObject (pre ++ post)).
Proof.
  intros Hj Hm Hp Hi. simpl. rewrite !requestMembers_app.
  destruct (requestMembers pre zeroRequest) as [req|]; [|done].
  simpl. unfold requestMember. by rewrite Hj, Hm, Hp, Hi.
Qed.

Lemma unknown_member_ignored_witness :
  unmarshalRequest
    (JObject ([("id", JNumber (Integer 1))] ++
              ("meta", JObject [("trace", JBool true)]) ::
              [("method", JString "eth_chainId")])) =
    unmarshalRequest
      (JObject ([("id", JNumber (Integer 1))] ++ [("method", JString "eth_chainId")])).
Proof.
  apply (unknown_member_ignored [("id", JNumber (Integer 1))]
           [("method", JString "eth_chainId")] "meta"
           (JObject [("trace", JBool true)])); reflexivity.
Defined.

(** X3.  What the forward proxy sends upstream for a decoded Call decodes
    back to that very Call: version, method, params (nil or not) and id
    survive the re-serialization. *)
Theorem forwarded_call_round_trip (v : json) (req : JSONRPCRequest) :
  unmarshalRequest v = Some req ->
  unmarshalRequest (marshalRequest req) = Some req.
Proof.
  intros Hdec. apply unmarshalRequest_ID_decodable in Hdec.
  destruct req as [version method params id]. simpl in Hdec.
  unfold decodable in Hdec.
  destruct params; destruct id as [[]|]; try reflexivity; done.
Qed.

Lemma forwarded_call_round_trip_witness :
  unmarshalRequest (marshalRequest (decodedCall 7 "eth_getBalance" [JString "41a1"])) =
    Some (decodedCall 7 "eth_getBalance" [JString "41a1"]).
Proof.
  apply (forwarded_call_round_trip
           (call (JNumber (Integer 7)) "2.0" "eth_getBalance" [JString "41a1"])).
  reflexivity.
Defined.

(** ** Single mode *)

(** X4.  A single Call that decodes and whose id is not null is answered
    with exactly one Response object, and that Response carries the id the
    decoder took: the value of the last member of the decoded request
    whose name selects the field [id] (of the members [id] and [ID] the
    later one), as the first decode holds it, whatever its JSON type and
    whichever executor handled the Call. *)
Theorem single_call_answered_with_its_id (E : Env) (v : list (string * json))
  (req : JSONRPCRequest) (x : json) (w : World E) :
  parseSingleRequest v = Some req ->
  idMember v = Some x -> x <> JNull ->
  exists resp,
    fst (handleJSONRPC E (Received (Document (JObject v))) w) = Object resp
    /\ Resp.ID resp = Some x.
Proof.
  intros Hparse Hid Hx.
  assert (Req.ID req = Some x) as Hreq.
  { unfold parseSingleRequest, unmarshalRequest in Hparse.
    rewrite (requestMembers_ID _ _ _ Hparse), Hid. by destruct x. }
  simpl. rewrite Hparse.
  pose proof (handleSingleRequest_ID E req w) as Hresp.
  destruct (handleSingleRequest E req w) as [resp w']. simpl in *.
  exists resp. unfold sendJSONRPCResponse. by rewrite Hresp, Hreq.
Qed.

Lemma single_call_answered_with_its_id_witness :
  exists resp,
    fst (handleJSONRPC (scripted wrongId noFiles)
           (Received (Document
              (call (JString "req-7") "2.0" "eth_blockNumber" []))) 0) = Object resp
    /\ Resp.ID resp = Some (JString "req-7").
Proof.
  refine (single_call_answered_with_its_id (scripted wrongId noFiles)
            [("id", JString "req-7"); ("jsonrpc", JString "2.0");
             ("method", JString "eth_blockNumber"); ("params", JArray [])]
            {| Req.Jsonrpc := "2.0"; Req.Method := "eth_blockNumber";
               Req.Params := Some []; Req.ID := Some (JString "req-7") |}
            (JString "req-7") 0 eq_refl eq_refl _).
  discriminate.
Defined.

(** X5.  A single Call causes at most one outbound exchange.  A Call of a
    version other than "2.0" and a trace Call cause none; a
    [debug_traceBlockByHash] Call causes none when its params are refused
    and otherwise one POST of [{"num": blockId}] to the REST endpoint; any
    other Call causes one POST of its re-serialization to the JSON-RPC
    endpoint. *)
Theorem single_call_exchanges (E : Env) (req : JSONRPCRequest) (w : World E) :
  (Req.Jsonrpc req <> "2.0" -> snd (handleSingleRequest E req w) = w)
  /\ (Req.Method req = "eth_debugTransactionTrace" ->
      snd (handleSingleRequest E req w) = w)
  /\ (Req.Jsonrpc req = "2.0" -> Req.Method req = "debug_traceBlockByHash" ->
      match firstParam req ≫= (fun p => unmarshalInt64 p 0) with
      | None => snd (handleSingleRequest E req w) = w
      | Some blockId =>
        snd (handleSingleRequest E req w) =
          snd (http_Post E
                 (tronRestEndpoint E ++ "/wallet/gettransactioninfobyblocknum")
                 (JObject [("num", JNumber (Integer blockId))]) w)
      end)
  /\ (Req.Jsonrpc req = "2.0" ->
      Req.Method req <> "debug_traceBlockByHash" ->
      Req.Method req <> "eth_debugTransactionTrace" ->
      snd (handleSingleRequest E req w) =
        snd (http_Post E (tronJSONRPCEndpoint E) (marshalRequest req) w)).
Proof.
  unfold handleSingleRequest. repeat split.
  - intros Hver. apply String.eqb_neq in Hver. by rewrite Hver.
  - intros ->. by destruct (negb (Req.Jsonrpc req =? "2.0")).
  - intros -> ->. simpl. unfold handleGetTransactionInfoByBlockNum.
    destruct (firstParam req) as [p|]; [|done]. simpl.
    destruct (unmarshalInt64 p 0) as [blockId|]; [|done].
    destruct (http_Post E _ _ w) as [[err|respBody] w']; [done|].
    by destruct (unmarshalTxInfos respBody).
  - intros -> Hm1 Hm2. apply String.eqb_neq in Hm1, Hm2.
    rewrite Hm1, Hm2. simpl. unfold forwardAndReturn.
    destruct (http_Post E _ _ w) as [[err|respBody] w']; [done|].
    by destruct (unmarshalResponse respBody).
Qed.

(** ** The envelope parser *)

Lemma handleBatch_completes (E : Env) (arr : list json) (w : World E) :
  arr <> [] -> completes (fst (handleBatch E arr w)).
Proof.
  intros Harr. unfold handleBatch.
  destruct (parseBatchRequests arr) as [reqs [errs|]] eqn:Hparse.
  { by destruct reqs. }
  destruct reqs as [reqs|].
  - pose proof (decoded_batch_nonempty arr reqs Hparse Harr) as Hreqs.
    destruct reqs as [|first others]; [done|].
    destruct (mixedMethods _ _); [done|].
    destruct (_ =? "debug_traceBlockByHash").
    { by destruct (handleBatchGetTransactionInfo E (first :: others) w). }
    destruct (_ =? "eth_debugTransactionTrace"); [done|].
    by destruct (forwardBatchToJSONRPC E (first :: others) arr _ w).
  - unfold parseBatchRequests in Hparse.
    destruct (parseBatchLoop arr [] []) as [reqs errors].
    by destruct (0 <? length errors)%nat.
Qed.

(** X6.  The handler never panics: whatever arrives, it runs to its end.
    In particular [reqs[0]] is always in range, because a non-empty array
    either yields an error for some element or a decoded Call for every
    element. *)
Theorem handler_never_panics (E : Env) (r : Incoming) (w : World E) :
  completes (fst (handleJSONRPC E r w)).
Proof.
  destruct r as [|[|raw]]; try done.
  destruct raw as [| | | |arr|v]; try done.
  - destruct arr as [|elem rest]; [done|]. by apply handleBatch_completes.
  - simpl. destruct (parseSingleRequest v) as [req|]; [|done].
    destruct (handleSingleRequest E req w) as [resp w']. simpl.
    unfold sendJSONRPCResponse. by destruct (Resp.ID resp).
Qed.

(** X7.  A payload that is neither a JSON object nor a JSON array, a
    payload that is not JSON and a body that cannot be read are each
    answered with one error Response with a null id, and no executor runs:
    code -32700 for the first two, -32603 for the last. *)
Theorem envelope_errors (E : Env) (w : World E) :
  handleJSONRPC E ReadError w =
    (Object (jsonError None (-32603) "Internal error: unable to read request body"), w)
  /\ handleJSONRPC E (Received Malformed) w =
       (Object (jsonError None (-32700) "Parse error: invalid JSON"), w)
  /\ (forall raw,
        (forall v, raw <> JObject v) -> (forall arr, raw <> JArray arr) ->
        handleJSONRPC E (Received (Document raw)) w =
          (Object (jsonError None (-32700) "Parse error: invalid structure"), w)).
Proof.
  repeat split.
  intros raw Hobj Harr. destruct raw; try done.
  - by destruct (Harr elems).
  - by destruct (Hobj members).
Qed.

(** ** Batch mode *)

Lemma filter_undecodable_cons arr :
  List.filter undecodable arr <> [] -> mapM unmarshalRequest arr = None.
Proof.
  induction arr as [|elem rest IH]; simpl; [done|].
  unfold undecodable at 1.
  destruct (unmarshalRequest elem) as [req|]; [|done].
  intros Hbad. by rewrite (IH Hbad).
Qed.

(** X8.  The batch decoder is all or nothing: when every element decodes
    it returns the decoded Calls, in the order of the elements, and no
    errors; otherwise it returns no Call at all and one parse error per
    element that failed. *)
Theorem parseBatchRequests_all_or_nothing (arr : list json) :
  parseBatchRequests arr =
    match mapM unmarshalRequest arr with
    | Some reqs => (Some reqs, None)
    | None =>
      (None,
       Some (replicate (length (List.filter undecodable arr)) batchParseError))
    end.
Proof.
  unfold parseBatchRequests. rewrite parseBatchLoop_acc. simpl.
  rewrite length_replicate.
  destruct (List.filter undecodable arr) as [|bad rest] eqn:Hbad.
  - by rewrite (filter_undecodable_nil arr Hbad).
  - rewrite filter_undecodable_cons by (by rewrite Hbad). done.
Qed.

(** X9.  A decoded batch whose Calls share one method that is not handled
    locally causes exactly one exchange: a POST to the JSON-RPC endpoint of
    the encoding of the array that the first decode returned, not of the
    decoded Calls; the world the handler leaves is the world after that
    POST. *)
Theorem forwarded_batch_one_exchange (E : Env) (arr : list json)
  (reqs : list JSONRPCRequest) (m : string) (w : World E) :
  parseBatchRequests arr = (Some reqs, None) ->
  arr <> [] ->
  Forall (fun r => Req.Method r = m) reqs ->
  m <> "debug_traceBlockByHash" -> m <> "eth_debugTransactionTrace" ->
  snd (handleJSONRPC E (Received (Document (JArray arr))) w) =
    snd (http_Post E (tronJSONRPCEndpoint E) (JArray arr) w).
Proof.
  intros Hparse Harr Hall Hm1 Hm2.
  pose proof (decoded_batch_nonempty arr reqs Hparse Harr) as Hreqs.
  destruct reqs as [|first others]; [done|].
  rewrite handleJSONRPC_batch, (handleBatch_forward E arr first others m w) by done.
  cbn [snd]. unfold forwardBatchToJSONRPC.
  destruct (http_Post E (tronJSONRPCEndpoint E) (JArray arr) w)
    as [[err|respBody] w']; [done|].
  destruct (unmarshalResponses respBody); [done|].
  destruct (unmarshalResponse respBody) as [singleResp|]; [|done].
  by destruct (Resp.ID singleResp).
Qed.

Lemma forwarded_batch_one_exchange_witness :
  snd (handleJSONRPC (scripted oneForTwo noFiles)
         (Received (Document (JArray [blockNumberCall 1; blockNumberCall 2]))) 0) = 1.
Proof.
  assert ([blockNumberCall 1; blockNumberCall 2] <> []) as Hne by discriminate.
  refine (forwarded_batch_one_exchange (scripted oneForTwo noFiles)
            [blockNumberCall 1; blockNumberCall 2]
            [decodedCall 1 "eth_blockNumber" []; decodedCall 2 "eth_blockNumber" []]
            "eth_blockNumber" 0 eq_refl Hne _ _ _).
  - repeat constructor.
  - discriminate.
  - discriminate.
Defined.

Lemma handleBatchGetTransactionInfo_app (E : Env) (l1 l2 : list JSONRPCRequest)
  (w : World E) :
  handleBatchGetTransactionInfo E (l1 ++ l2) w =
    let '(resps1, w1) := handleBatchGetTransactionInfo E l1 w in
    let '(resps2, w2) := handleBatchGetTransactionInfo E l2 w1 in
    ((resps1 ++ resps2)%list, w2).
Proof.
  revert w. induction l1 as [|r rest IH]; intros w; simpl.
  - by destruct (handleBatchGetTransactionInfo E l2 w).
  - destruct (handleGetTransactionInfoByBlockNum E r w) as [resp w1].
    rewrite IH.
    destruct (handleBatchGetTransactionInfo E rest w1) as [resps1 w2].
    by destruct (handleBatchGetTransactionInfo E l2 w2).
Qed.

Lemma handleBatchGetTransactionInfo_length (E : Env) (reqs : list JSONRPCRequest)
  (w : World E) :
  length (fst (handleBatchGetTransactionInfo E reqs w)) = length reqs.
Proof.
  symmetry. eapply Forall2_length, handleBatchGetTransactionInfo_aligned.
Qed.

(** X10.  The REST translator works through a batch in order, one exchange
    after the other: the Response at index [k] is what the single-call
    translator returns for Call [k] in the world that the Calls before it
    have left. *)
Theorem rest_batch_in_sequence (E : Env) (reqs : list JSONRPCRequest)
  (w : World E) (k : nat) (r : JSONRPCRequest) :
  reqs !! k = Some r ->
  fst (handleBatchGetTransactionInfo E reqs w) !! k =
    Some (fst (handleGetTransactionInfoByBlockNum E r
                 (snd (handleBatchGetTransactionInfo E (take k reqs) w)))).
Proof.
  intros Hk.
  rewrite <- (take_drop_middle reqs k r Hk) at 1.
  rewrite handleBatchGetTransactionInfo_app.
  pose proof (handleBatchGetTransactionInfo_length E (take k reqs) w) as Hlen.
  rewrite length_take_le in Hlen by (apply lookup_lt_Some in Hk; lia).
  destruct (handleBatchGetTransactionInfo E (take k reqs) w) as [before w1].
  simpl in *.
  destruct (handleGetTransactionInfoByBlockNum E r w1) as [resp w2].
  destruct (handleBatchGetTransactionInfo E (drop (S k) reqs) w2) as [after w3].
  simpl. rewrite lookup_app_r by lia.
  by rewrite Hlen, Nat.sub_diag.
Qed.

Lemma rest_batch_in_sequence_witness :
  fst (handleBatchGetTransactionInfo (scripted restNode noFiles)
         [decodedCall 1 "debug_traceBlockByHash" [JNumber (Integer 100)];
          decodedCall 2 "debug_traceBlockByHash" [JString "0x64"]] 0) !! 1 =
    Some (jsonError (Some (JNumber (Integer 2))) (-32602)
            "Invalid params: must be integer block number").
Proof.
  apply (rest_batch_in_sequence (scripted restNode noFiles)
           [decodedCall 1 "debug_traceBlockByHash" [JNumber (Integer 100)];
            decodedCall 2 "debug_traceBlockByHash" [JString "0x64"]] 0 1
           (decodedCall 2 "debug_traceBlockByHash" [JString "0x64"])).
  reflexivity.
Defined.



(** ** The file fetcher *)

Lemma tracedTx_None (req : JSONRPCRequest) :
  tracedTx req = None <->
  (len (Req.Params req) = 0 \/
   exists p rest, Req.Params req = Some (p :: rest) /\ stringOrNull p = false).
Proof.
  unfold tracedTx. destruct (Req.Params req) as [[|p rest]|]; simpl.
  - split; [by left|done].
  - destruct p; simpl; split; try done; try (intros _; right; by eexists _, _);
      intros [[=]|(p' & rest' & [= <- <-] & Hp)]; done.
  - split; [by left|done].
Qed.

(** X12.  The trace handler returns invalid params (-32602) exactly when
    the params are empty or the first parameter is neither a string nor
    null, and an internal error (-32603) exactly when the file the Call
    names cannot be read, does not hold JSON, or holds a number that no
    [float64] holds; in every other case the result is the document of the
    file as it decodes into an [interface{}]: every number the [float64]
    nearest to it, every object a map. *)
Theorem trace_handler_contract (E : Env) (req : JSONRPCRequest) :
  (errorCode (handleDebugTransactionTrace E req) = Some (-32602)%Z <->
     (len (Req.Params req) = 0 \/
      exists p rest, Req.Params req = Some (p :: rest) /\ stringOrNull p = false))
  /\ (errorCode (handleDebugTransactionTrace E req) = Some (-32603)%Z <->
        exists txId,
          tracedTx req = Some txId /\
          (os_ReadFile E (traceFileOf txId) = None \/
           os_ReadFile E (traceFileOf txId) = Some Malformed \/
           exists doc, os_ReadFile E (traceFileOf txId) = Some (Document doc)
                       /\ outOfRange doc))
  /\ (forall txId doc a,
        tracedTx req = Some txId ->
        os_ReadFile E (traceFileOf txId) = Some (Document doc) ->
        unmarshalGeneric doc = Some a ->
        handleDebugTransactionTrace E req =
          {| Resp.Jsonrpc := "2.0"; Resp.ID := Req.ID req;
             Resp.Result := a; Resp.Error := None |}).
Proof.
  rewrite <- tracedTx_None.
  destruct (tracedTx req) as [txId|] eqn:Htx.
  - rewrite (trace_of_tx E req txId Htx).
    split; [|split].
    + destruct (os_ReadFile E (traceFileOf txId)) as [fileData|]; [|done].
      by destruct (unmarshalInterface fileData).
    + split.
      * intros Hcode. exists txId. split; [done|].
        destruct (os_ReadFile E (traceFileOf txId)) as [fileData|]; [|by left].
        destruct (unmarshalInterface fileData) eqn:Hdec; [done|].
        apply unmarshalInterface_None in Hdec as [->|(doc & -> & Hout)]; eauto.
      * intros (txId' & [= <-] & [->|[->|(doc & -> & Hout)]]); [done|done|].
        assert (unmarshalInterface (Document doc) = None) as ->; [|done].
        apply unmarshalInterface_None. right. by exists doc.
    + intros txId' doc a [= <-] -> Hdoc. simpl. by rewrite Hdoc.
  - destruct (trace_without_tx E req Htx) as [msg ->].
    split; [done|]. split; [|done].
    split; [done|]. by intros (txId' & [=] & _).
Qed.

Lemma trace_handler_contract_witness :
  handleDebugTransactionTrace (scripted unreachable numbersTrace)
    (decodedCall 1 "eth_debugTransactionTrace" [JString "abc123"]) =
    {| Resp.Jsonrpc := "2.0"; Resp.ID := Some (JNumber (Integer 1));
       Resp.Result :=
         Some (JObject [("e", JNumber (Integer 1000));
                        ("n", JNumber (Integer 12345678901234567000));
                        ("x", JNumber (Integer 1))]);
       Resp.Error := None |}.
Proof.
  refine (proj2 (proj2 (trace_handler_contract (scripted unreachable numbersTrace)
                          (decodedCall 1 "eth_debugTransactionTrace"
                             [JString "abc123"])))
            "abc123" _ _ eq_refl eq_refl _).
  vm_compute. reflexivity.
Defined.

(** ** The response assembler *)

(** X15.  The encoding of a Response has the members [jsonrpc] and [id]
    followed by [result] alone or [error] alone exactly when the Response
    has one of result and error and not the other. *)
Theorem encoded_members (r : JSONRPCResponse) :
  (is_Some (Resp.Result r) <-> Resp.Error r = None) <->
  (memberNames (marshalResponse r) = ["jsonrpc"; "id"; "result"] \/
   memberNames (marshalResponse r) = ["jsonrpc"; "id"; "error"]).
Proof.
  unfold marshalResponse.
  destruct (Resp.Result r) as [result|], (Resp.Error r) as [error|]; simpl.
  - split; [intros [H _]; by specialize (H (mk_is_Some _ _ eq_refl))|].
    intros [?|?]; discriminate.
  - split; [by left|]. intros _. split; [done|by eexists].
  - split; [by right|]. intros _. split; [by intros [? ?]|done].
  - split; [intros [_ H]; by destruct (H eq_refl)|].
    intros [?|?]; discriminate.
Qed.

(** ** More on batch mode *)

Lemma aligned_slot reqs resps k q :
  Forall2 answers reqs resps -> reqs !! k = Some q ->
  exists resp, resps !! k = Some resp /\ Resp.ID resp = Req.ID q.
Proof.
  intros Hall Hk.
  destruct (Forall2_lookup_l _ _ _ _ _ Hall Hk) as (resp & Hresp & Hans).
  by exists resp.
Qed.

(** X17.  In batch mode a Call is never treated as a notification: when the
    batch is rejected for mixed methods or handled by the REST translator
    or the file fetcher, the Call at index [k] has a Response at index [k]
    carrying its id, even when that id is null or absent. *)
Theorem batch_answers_every_call (E : Env) (arr : list json)
  (reqs : list JSONRPCRequest) (w : World E) (k : nat) (q : JSONRPCRequest) :
  parseBatchRequests arr = (Some reqs, None) ->
  (exists r1 r2, r1 ∈ reqs /\ r2 ∈ reqs /\ Req.Method r1 <> Req.Method r2)
  \/ Forall (fun r => Req.Method r = "debug_traceBlockByHash") reqs
  \/ Forall (fun r => Req.Method r = "eth_debugTransactionTrace") reqs ->
  reqs !! k = Some q ->
  exists resps resp,
    fst (handleJSONRPC E (Received (Document (JArray arr))) w) = Array (Some resps)
    /\ resps !! k = Some resp
    /\ Resp.ID resp = Req.ID q.
Proof.
  intros Hparse Hroute Hk.
  assert (reqs <> []) as Hreqs by (intros ->; done).
  assert (arr <> []) as Harr.
  { intros ->. apply parseBatchRequests_length in Hparse. by destruct reqs. }
  assert (exists resps,
            fst (handleJSONRPC E (Received (Document (JArray arr))) w) =
              Array (Some resps) /\ Forall2 answers reqs resps)
    as (resps & Hout & Hall).
  { destruct Hroute as [Hmixed|[Hall|Hall]].
    - rewrite (mixed_batch_rejected_aux E arr reqs w Hparse Hmixed).
      eexists. split; [done|]. apply createErrorResponsesForBatch_aligned.
    - destruct reqs as [|first others]; [done|].
      rewrite handleJSONRPC_batch, (handleBatch_rest E arr first others w) by done.
      eexists. split; [done|]. apply handleBatchGetTransactionInfo_aligned.
    - destruct reqs as [|first others]; [done|].
      rewrite handleJSONRPC_batch, (handleBatch_trace E arr first others w) by done.
      eexists. split; [done|]. apply trace_map_aligned. }
  destruct (aligned_slot reqs resps k q Hall Hk) as (resp & Hresp & Hid).
  by exists resps, resp.
Qed.

Lemma batch_answers_every_call_witness :
  exists resps resp,
    fst (handleJSONRPC (scripted unreachable oneTrace)
           (Received (Document (JArray
              [call (JNumber (Integer 1)) "2.0" "eth_debugTransactionTrace"
                 [JString "abc123"];
               call JNull "2.0" "eth_debugTransactionTrace" [JString "abc123"]])))
           0) = Array (Some resps)
    /\ resps !! 1 = Some resp
    /\ Resp.ID resp = None.
Proof.
  refine (batch_answers_every_call (scripted unreachable oneTrace)
            [call (JNumber (Integer 1)) "2.0" "eth_debugTransactionTrace"
               [JString "abc123"];
             call JNull "2.0" "eth_debugTransactionTrace" [JString "abc123"]]
            [decodedCall 1 "eth_debugTransactionTrace" [JString "abc123"];
             {| Req.Jsonrpc := "2.0"; Req.Method := "eth_debugTransactionTrace";
                Req.Params := Some [JString "abc123"]; Req.ID := None |}]
            0 1
            {| Req.Jsonrpc := "2.0"; Req.Method := "eth_debugTransactionTrace";
               Req.Params := Some [JString "abc123"]; Req.ID := None |}
            eq_refl _ eq_refl).
  right. right. repeat constructor.
Defined.

(** X18.  The homogeneity guard fires exactly when two Calls of the batch
    differ in their method: a batch whose Calls share one method is never
    rejected as mixed, whatever that method is. *)
Theorem guard_fires_iff_two_methods (first : JSONRPCRequest)
  (others : list JSONRPCRequest) :
  mixedMethods (Req.Method first) (first :: others) = true <->
  exists r1 r2,
    r1 ∈ first :: others /\ r2 ∈ first :: others /\ Req.Method r1 <> Req.Method r2.
Proof.
  split.
  - unfold mixedMethods. intros Hex.
    apply existsb_exists in Hex as (r & Hin & Hr).
    exists r, first. split; [by apply list_elem_of_In|].
    split; [apply list_elem_of_here|].
    apply negb_true_iff in Hr. by apply String.eqb_neq.
  - intros (r1 & r2 & Hin1 & Hin2 & Hne).
    destruct (String.eqb_spec (Req.Method r1) (Req.Method first)) as [Heq|Hneq].
    + apply (mixedMethods_true _ _ r2); [done|congruence].
    + by apply (mixedMethods_true _ _ r1).
Qed.
